(** * geosolver: the constraint-to-cluster mapping layer of [geometric.py]

    A shallow embedding of [GeometricProblem], [GeometricSolver],
    [GeometricCluster] and the constraint classes of
    [src/geosolver/geometric.py], and the properties stated about them.

    Conventions of the embedding

    - A Python call either returns a value or raises: [result A].
      Methods that mutate [self] are state transformers in the monad
      [M S], which keeps the mutations made before an exception is raised.
    - Python floats are modelled as real numbers ([R]); a point is the list
      of its coordinates.
    - A [dict] is a [gmap]. Objects that are hashed by identity carry the
      identity as a number ([cid], [clid]).
    - The attributes of a constraint that never change after construction
      (its class and [_variables]) travel with the reference to it; the
      attributes that are assigned later ([_value], the listeners) live in
      a store indexed by the identity of the object, so that every holder of
      the reference sees an update. *)

From Stdlib Require Import Reals Lra ZArith List.
From stdpp Require Import gmap strings.

Local Open Scope string_scope.
Local Open Scope list_scope.

(** ** Exceptions, results and the state monad *)

Inductive exn : Type :=
| StandardError (msg : string)
| AttributeError (attr : string)
| NameError (name : string)
| KeyError
| IndexError
| TypeError
| AssertionError.

Inductive result (A : Type) : Type :=
| Ok (a : A)
| Raise (e : exn).
Arguments Ok {A} a.
Arguments Raise {A} e.

#[global] Instance result_ret : MRet result := fun A a => Ok a.
#[global] Instance result_bind : MBind result :=
  fun A B k r => match r with Ok a => k a | Raise e => Raise e end.

(** [M S A]: a method of an object whose state is [S]. The state after a
    raise is the state at the raise. *)
Definition M (S A : Type) : Type := S -> S * result A.

#[global] Instance M_ret {S} : MRet (M S) := fun A a s => (s, Ok a).
#[global] Instance M_bind {S} : MBind (M S) :=
  fun A B k m s =>
    match m s with
    | (s', Ok a) => k a s'
    | (s', Raise e) => (s', Raise e)
    end.

Definition raise {S A} (e : exn) : M S A := fun s => (s, Raise e).
Definition lift {S A} (r : result A) : M S A := fun s => (s, r).
Definition gets {S A} (f : S -> A) : M S A := fun s => (s, Ok (f s)).
Definition modify {S} (f : S -> S) : M S unit := fun s => (f s, Ok tt).

(** [for x in l: body x] *)
Fixpoint for_each {S A} (l : list A) (body : A -> M S unit) : M S unit :=
  match l with
  | [] => mret tt
  | x :: l' => body x ;; for_each l' body
  end.

(** A method keeps the property [P] of the state, whether it returns or
    raises. *)
Definition preserves {S A} (P : S -> Prop) (m : M S A) : Prop :=
  forall s s' r, P s -> m s = (s', r) -> P s'.

(** [l[i]] on a Python list (non-negative index). *)
Definition index {A} (l : list A) (i : nat) : result A :=
  match l !! i with
  | Some x => Ok x
  | None => Raise IndexError
  end.

(** [d[k]] on a Python dict. *)
Definition getitem `{Countable K} {V} (d : gmap K V) (k : K) : result V :=
  match d !! k with
  | Some x => Ok x
  | None => Raise KeyError
  end.

(** [k in d] on a Python dict. *)
Definition contains `{Countable K} {V} (d : gmap K V) (k : K) : bool :=
  bool_decide (is_Some (d !! k)).

(** [x in l] on a Python list. *)
Definition mem `{EqDecision A} (x : A) (l : list A) : bool :=
  bool_decide (x ∈ l).

(** ** Values *)

Abbreviation variable := string.
Abbreviation vector := (list R).

(** What the parameter of a constraint can hold: nothing yet, a scalar
    (distance, angle) or a position. *)
Inductive pyval : Type :=
| VNone
| VFloat (x : R)
| VVector (p : vector).

Definition as_float (v : pyval) : result R :=
  match v with
  | VFloat x => Ok x
  | _ => Raise TypeError
  end.

(** [v[i]] where [v] is the parameter of a constraint. *)
Definition subscript (v : pyval) (i : nat) : result R :=
  match v with
  | VVector p => index p i
  | _ => Raise TypeError
  end.

(** ** Numeric collaborators ([tolerance], [intersections], [vector]) *)

(** Modelled from the spec: the modules [tolerance], [intersections] and
    [vector] are not part of the file. The spec (6.1) gives [tol_eq(x, y)]
    as an epsilon tolerance comparison; the epsilon is a small positive
    constant. *)
Definition tolerance : R := (/ 1000000)%R.

Definition tol_eq (a b : R) : bool :=
  if Rle_dec (Rabs (a - b)) tolerance then true else false.

Fixpoint vsub (a b : vector) : vector :=
  match a, b with
  | x :: a', y :: b' => (x - y)%R :: vsub a' b'
  | _, _ => []
  end.

Fixpoint dot (a b : vector) : R :=
  match a, b with
  | x :: a', y :: b' => (x * y + dot a' b')%R
  | _, _ => 0%R
  end.

Definition norm (a : vector) : R := sqrt (dot a a).

(** Modelled from the spec: [distance(p, q)], the Euclidean distance, a
    non-negative real (3, 6.1). *)
Definition distance_2p (a b : vector) : R := norm (vsub a b).

(** Modelled from the spec: [angle_at(a, b, c)] (6.1), the angle at [b]
    between the rays to [a] and to [c]: unsigned, in [0, pi], in 3D; signed,
    in (-pi, pi], counterclockwise positive, in 2D; absent ([None]) when a
    ray has no direction. *)
Definition angle_3p (a b c : vector) : option R :=
  let u := vsub a b in
  let v := vsub c b in
  if tol_eq (norm u) 0 || tol_eq (norm v) 0 then None
  else
    let t := acos (dot u v / (norm u * norm v)) in
    match u, v with
    | [u1; u2], [v1; v2] =>
        if Rlt_dec (u1 * v2 - u2 * v1) 0 then Some (- t)%R else Some t
    | _, _ => Some t
    end.

(** ** Constraint objects *)

Inductive con_class : Type :=
| DistanceConstraint
| AngleConstraint
| FixConstraint
| SelectionConstraint
| OtherConstraint.

(** [isinstance(con, ParametricConstraint)] *)
Definition is_ParametricConstraint (k : con_class) : bool :=
  match k with
  | DistanceConstraint | AngleConstraint | FixConstraint => true
  | _ => false
  end.

(** A reference to a constraint object: its identity and what is fixed at
    construction. *)
Record Constraint : Type := mkConstraint {
  cid : nat;
  class : con_class;
  _variables : list variable
}.

Inductive listener : Type :=
| the_problem
| other_listener (id : nat).

(** The attributes of a constraint object that are assigned after
    construction. *)
Record ConState : Type := mkConState {
  _value : pyval;
  listeners : list listener
}.

#[global] Instance con_class_eq_dec : EqDecision con_class.
Proof. solve_decision. Defined.
#[global] Instance Constraint_eq_dec : EqDecision Constraint.
Proof. solve_decision. Defined.
#[global] Instance listener_eq_dec : EqDecision listener.
Proof. solve_decision. Defined.

Abbreviation store := (gmap nat ConState).

Definition fresh_state : ConState := {| _value := VNone; listeners := [] |}.

Definition state_of (h : store) (con : Constraint) : ConState :=
  default fresh_state (h !! cid con).

(** [Constraint.variables]: a new list with the contents of [_variables]. *)
Definition variables (con : Constraint) : list variable := _variables con.

(** [ParametricConstraint.get_parameter] *)
Definition get_parameter (h : store) (con : Constraint) : pyval :=
  _value (state_of h con).

Abbreviation mapping := (gmap string (list R)).

(** [FixConstraint.satisfied]. The second comparison reads [self.value],
    an attribute that no class of the file assigns (the parameter is
    [self._value]): the lookup raises [AttributeError]. *)
Definition FixConstraint_satisfied (h : store) (con : Constraint)
    (m : mapping) : result bool :=
  v0 ← index (_variables con) 0;
  a ← getitem m v0;
  a0 ← index a 0;
  p0 ← subscript (get_parameter h con) 0;
  if tol_eq a0 p0 then
    a1 ← index a 1;
    Raise (AttributeError "value")
  else Ok false.

(** [DistanceConstraint.satisfied] *)
Definition DistanceConstraint_satisfied (h : store) (con : Constraint)
    (m : mapping) : result bool :=
  v0 ← index (_variables con) 0;
  a ← getitem m v0;
  v1 ← index (_variables con) 1;
  b ← getitem m v1;
  d ← as_float (get_parameter h con);
  Ok (tol_eq (distance_2p a b) d).

(** [AngleConstraint.satisfied] *)
Definition AngleConstraint_satisfied (h : store) (con : Constraint)
    (m : mapping) : result bool :=
  v0 ← index (_variables con) 0;
  a ← getitem m v0;
  v1 ← index (_variables con) 1;
  b ← getitem m v1;
  v2 ← index (_variables con) 2;
  c ← getitem m v2;
  match angle_3p a b c with
  | None => Ok false
  | Some ang =>
      x ← as_float (get_parameter h con);
      let cmp := if bool_decide (3 ≤ length a)%nat then Rabs x else x in
      Ok (tol_eq ang cmp)
  end.

(** [con.satisfied(mapping)]: the method of the class of [con]. The classes
    defined outside the file ([SelectionConstraint] of module [selconstr],
    any other subclass of [Constraint]) bring their own predicate,
    [opaque_satisfied]. *)
Definition satisfied (opaque_satisfied : Constraint -> mapping -> result bool)
    (h : store) (con : Constraint) (m : mapping) : result bool :=
  match class con with
  | FixConstraint => FixConstraint_satisfied h con m
  | DistanceConstraint => DistanceConstraint_satisfied h con m
  | AngleConstraint => AngleConstraint_satisfied h con m
  | SelectionConstraint | OtherConstraint => opaque_satisfied con m
  end.

(** ** Notifications

    A message is a pair of a name and its data, as in
    [("set_parameter", (constraint, value))]. *)

Inductive data : Type :=
| D_variable (v : variable)
| D_constraint (c : Constraint)
| D_vector (p : vector)
| D_value (value : pyval)
| D_pair (x y : data).

Abbreviation message := (string * data)%type.

(** ** The constraint graph ([constraint.ConstraintGraph]) *)

Module ConstraintGraph.

(** Modelled from the spec: the class is not part of the file. It stores
    the variables and the constraints with their adjacency and emits
    [add_variable], [rem_variable], [add_constraint] and [rem_constraint]
    to its listeners (2, 6.3); [sent] records what it emitted, oldest
    first. *)
Record t : Type := mk {
  variables : list variable;
  constraints : list Constraint;
  sent : list message
}.

Definition empty : t := {| variables := []; constraints := []; sent := [] |}.

Definition send_notify (msg : message) (g : t) : t :=
  {| variables := variables g; constraints := constraints g;
     sent := sent g ++ [msg] |}.

(** The constraints whose variables include [v]. *)
Definition get_constraints_on (g : t) (v : variable) : list Constraint :=
  List.filter (fun c => mem v (_variables c)) (constraints g).

Definition add_variable (v : variable) (g : t) : t :=
  if mem v (variables g) then g
  else send_notify ("add_variable", D_variable v)
         {| variables := variables g ++ [v]; constraints := constraints g;
            sent := sent g |}.

Definition add_constraint (c : Constraint) (g : t) : t :=
  if mem c (constraints g) then g
  else send_notify ("add_constraint", D_constraint c)
         (let g' := fold_left (fun g v => add_variable v g) (_variables c) g in
          {| variables := variables g'; constraints := constraints g' ++ [c];
             sent := sent g' |}).

Definition rem_constraint (c : Constraint) (g : t) : t :=
  if mem c (constraints g) then
    send_notify ("rem_constraint", D_constraint c)
      {| variables := variables g;
         constraints := List.filter (fun x => negb (bool_decide (x = c)))
                          (constraints g);
         sent := sent g |}
  else g.

Definition rem_variable (v : variable) (g : t) : t :=
  if mem v (variables g) then
    let g' := fold_left (fun g c => rem_constraint c g)
                (get_constraints_on g v) g in
    send_notify ("rem_variable", D_variable v)
      {| variables := List.filter (fun x => negb (bool_decide (x = v)))
                        (variables g');
         constraints := constraints g';
         sent := sent g' |}
  else g.

End ConstraintGraph.

(** ** GeometricProblem *)

Module GeometricProblem.

(** The attributes of a problem; [sent] records the messages the problem
    passed to [send_notify], oldest first. *)
Record t : Type := mk {
  dimension : Z;
  prototype : gmap variable vector;
  cg : ConstraintGraph.t;
  sent : list message
}.

(** [GeometricProblem.__init__] *)
Definition init (dimension : Z) : t :=
  {| dimension := dimension; prototype := ∅;
     cg := ConstraintGraph.empty; sent := [] |}.

(** The problem together with the constraint objects it shares with its
    caller. [next_id] is the identity of the next object created. *)
Record World : Type := mkWorld {
  objects : store;
  next_id : nat;
  problem : t
}.

Definition set_prototype (f : gmap variable vector -> gmap variable vector)
    : M World unit :=
  modify (fun w =>
    {| objects := objects w; next_id := next_id w;
       problem := {| dimension := dimension (problem w);
                     prototype := f (prototype (problem w));
                     cg := cg (problem w);
                     sent := sent (problem w) |} |}).

(** A call of a method of [self.cg]. *)
Definition call_cg (f : ConstraintGraph.t -> ConstraintGraph.t)
    : M World unit :=
  modify (fun w =>
    {| objects := objects w; next_id := next_id w;
       problem := {| dimension := dimension (problem w);
                     prototype := prototype (problem w);
                     cg := f (cg (problem w));
                     sent := sent (problem w) |} |}).

(** [self.send_notify(msg)] *)
Definition send_notify (msg : message) : M World unit :=
  modify (fun w =>
    {| objects := objects w; next_id := next_id w;
       problem := {| dimension := dimension (problem w);
                     prototype := prototype (problem w);
                     cg := cg (problem w);
                     sent := sent (problem w) ++ [msg] |} |}).

Definition set_state (con : Constraint) (f : ConState -> ConState)
    : M World unit :=
  modify (fun w =>
    {| objects := <[cid con := f (state_of (objects w) con)]> (objects w);
       next_id := next_id w; problem := problem w |}).

(** Modelled from the spec: [Notifier.add_listener] (module [notify], not
    part of the file), the subscription of a listener in a
    publisher-subscriber registry. *)
Definition add_listener (con : Constraint) (l : listener) : M World unit :=
  set_state con (fun st =>
    {| _value := _value st;
       listeners := if mem l (listeners st) then listeners st
                    else listeners st ++ [l] |}).

(** [add_point] *)
Definition add_point (v : variable) (position : vector) : M World unit :=
  p ← gets problem;
  if negb (contains (prototype p) v) then
    set_prototype (fun d => <[v := position]> d) ;;
    call_cg (ConstraintGraph.add_variable v)
  else raise (StandardError "point already in problem").

(** [set_point] *)
Definition set_point (v : variable) (position : vector) : M World unit :=
  p ← gets problem;
  if contains (prototype p) v then
    set_prototype (fun d => <[v := position]> d) ;;
    send_notify ("set_point", D_pair (D_variable v) (D_vector position))
  else raise (StandardError "unknown point variable").

(** [get_point] *)
Definition get_point (p : t) (v : variable) : result vector :=
  if contains (prototype p) v then getitem (prototype p) v
  else Raise (StandardError "unknown point variable").


(** [len(l) > 1: raise; len(l) == 1: l[0]; else None], the end of
    [get_distance], [get_angle] and [get_fix]. *)
Definition at_most_one (l : list Constraint) : result (option Constraint) :=
  match l with
  | _ :: _ :: _ => Raise (StandardError "multiple constraints found")
  | [c] => Ok (Some c)
  | [] => Ok None
  end.

(** [get_distance] *)
Definition get_distance (p : t) (a b : variable)
    : result (option Constraint) :=
  let on_a := ConstraintGraph.get_constraints_on (cg p) a in
  let on_b := ConstraintGraph.get_constraints_on (cg p) b in
  let on_ab := List.filter (fun c => mem c on_a && mem c on_b) on_a in
  let distances :=
    List.filter (fun c => bool_decide (class c = DistanceConstraint)) on_ab in
  at_most_one distances.

(** [get_angle] *)
Definition get_angle (p : t) (a b c : variable)
    : result (option Constraint) :=
  let on_a := ConstraintGraph.get_constraints_on (cg p) a in
  let on_b := ConstraintGraph.get_constraints_on (cg p) b in
  let on_c := ConstraintGraph.get_constraints_on (cg p) c in
  let on_abc :=
    List.filter (fun x => mem x on_a && mem x on_b && mem x on_c) on_a in
  let angles :=
    List.filter (fun x => bool_decide (class x = AngleConstraint)) on_abc in
  let candidates :=
    List.filter (fun x => bool_decide (variables x !! 1%nat = Some b)) angles in
  at_most_one candidates.

(** [get_fix] *)
Definition get_fix (p : t) (v : variable) : result (option Constraint) :=
  let on_p := ConstraintGraph.get_constraints_on (cg p) v in
  let fixes :=
    List.filter (fun x => bool_decide (class x = FixConstraint)) on_p in
  at_most_one fixes.

(** [for var in con.variables(): if var not in self.prototype: raise] *)
Fixpoint check_variables (p : t) (vars : list variable) : result unit :=
  match vars with
  | [] => Ok tt
  | var :: vars' =>
      if negb (contains (prototype p) var)
      then Raise (StandardError "point variable not in problem")
      else check_variables p vars'
  end.

(** [add_constraint] *)
Definition add_constraint (con : Constraint) : M World unit :=
  p ← gets problem;
  match class con with
  | DistanceConstraint =>
      lift (check_variables p (variables con)) ;;
      v0 ← lift (index (variables con) 0);
      v1 ← lift (index (variables con) 1);
      d ← lift (get_distance p v0 v1);
      if bool_decide (is_Some d)
      then raise (StandardError "distance already in problem")
      else add_listener con the_problem ;;
           call_cg (ConstraintGraph.add_constraint con)
  | AngleConstraint =>
      lift (check_variables p (variables con)) ;;
      v0 ← lift (index (variables con) 0);
      v1 ← lift (index (variables con) 1);
      v2 ← lift (index (variables con) 2);
      a ← lift (get_angle p v0 v1 v2);
      if bool_decide (is_Some a)
      then raise (StandardError "angle already in problem")
      else add_listener con the_problem ;;
           call_cg (ConstraintGraph.add_constraint con)
  | SelectionConstraint =>
      lift (check_variables p (variables con)) ;;
      call_cg (ConstraintGraph.add_constraint con) ;;
      send_notify ("add_selection_constraint", D_constraint con)
  | FixConstraint =>
      lift (check_variables p (variables con)) ;;
      v0 ← lift (index (variables con) 0);
      f ← lift (get_fix p v0);
      if bool_decide (is_Some f)
      then raise (StandardError "fix already in problem")
      else call_cg (ConstraintGraph.add_constraint con)
  | OtherConstraint =>
      raise (StandardError "unsupported constraint type")
  end.

(** [rem_point] *)
Definition rem_point (v : variable) : M World unit :=
  p ← gets problem;
  if contains (prototype p) v then
    call_cg (ConstraintGraph.rem_variable v) ;;
    set_prototype (fun d => delete v d)
  else raise (StandardError "variable not in problem.").

(** [rem_constraint] *)
Definition rem_constraint (con : Constraint) : M World unit :=
  p ← gets problem;
  if mem con (ConstraintGraph.constraints (cg p)) then
    (if bool_decide (class con = SelectionConstraint)
     then send_notify ("rem_selection_constraint", D_constraint con)
     else mret tt) ;;
    call_cg (ConstraintGraph.rem_constraint con)
  else raise (StandardError "no constraint in problem.").

(** [receive_notify], called by the constraint [object] the problem
    listens to. *)
Definition receive_notify (object : Constraint) (notify : message)
    : M World unit :=
  if is_ParametricConstraint (class object) then
    let '(msg, d) := notify in
    if bool_decide (msg = "set_parameter") then
      send_notify ("set_parameter", D_pair (D_constraint object) d)
    else mret tt
  else mret tt.

(** The inner loop of [verify]: [solved] after
    [for v in con.variables(): if v not in solution: solved = False; break]. *)
Fixpoint solved (vars : list variable) (solution : mapping) : bool :=
  match vars with
  | [] => true
  | v :: vars' =>
      if negb (contains solution v) then false else solved vars' solution
  end.

(** Modelled from the spec: [Notifier.send_notify] (module [notify], not
    part of the file) calls [receive_notify(self, msg)] of every listener.
    The problem is the one listener whose reaction belongs to this
    file. *)
Definition deliver (object : Constraint) (msg : message) (l : listener)
    : M World unit :=
  match l with
  | the_problem => receive_notify object msg
  | other_listener _ => mret tt
  end.

Definition notifier_send_notify (con : Constraint) (msg : message)
    : M World unit :=
  ls ← gets (fun w => listeners (state_of (objects w) con));
  for_each ls (deliver con msg).

(** [ParametricConstraint.set_parameter] *)
Definition set_parameter (con : Constraint) (value : pyval) : M World unit :=
  set_state con (fun st => {| _value := value; listeners := listeners st |}) ;;
  notifier_send_notify con ("set_parameter", D_value value).

(** The constructors [FixConstraint(var, pos)],
    [DistanceConstraint(a, b, dist)] and [AngleConstraint(a, b, c, ang)]:
    a new object, [_value = None], [_variables], then
    [set_parameter]. *)
Definition new_constraint (k : con_class) (vars : list variable)
    (value : pyval) : M World Constraint :=
  id ← gets next_id;
  let con := {| cid := id; class := k; _variables := vars |} in
  modify (fun w =>
    {| objects := <[id := fresh_state]> (objects w);
       next_id := S id; problem := problem w |}) ;;
  set_parameter con value ;;
  mret con.

Definition new_FixConstraint (var : variable) (pos : vector)
    : M World Constraint :=
  new_constraint FixConstraint [var] (VVector pos).

Definition new_DistanceConstraint (a b : variable) (dist : R)
    : M World Constraint :=
  new_constraint DistanceConstraint [a; b] (VFloat dist).

Definition new_AngleConstraint (a b c : variable) (ang : R)
    : M World Constraint :=
  new_constraint AngleConstraint [a; b; c] (VFloat ang).

(** A new problem and no constraint object yet. *)
Definition new_world (dimension : Z) : World :=
  {| objects := ∅; next_id := 0; problem := init dimension |}.

(** The authoring calls on a problem. *)
Inductive call : Type :=
| Add_point (v : variable) (position : vector)
| Set_point (v : variable) (position : vector)
| Get_point (v : variable)
| Rem_point (v : variable)
| Add_constraint (con : Constraint)
| Rem_constraint (con : Constraint).

Definition exec (c : call) : M World unit :=
  match c with
  | Add_point v position => add_point v position
  | Set_point v position => set_point v position
  | Get_point v => p ← gets problem; lift (get_point p v) ;; mret tt
  | Rem_point v => rem_point v
  | Add_constraint con => add_constraint con
  | Rem_constraint con => rem_constraint con
  end.

(** The invalid authoring calls: a point that exists already, an unknown
    point, a constraint on a missing variable, a second distance on a
    pair, a second angle on a triple with the same apex, a second fix on
    a variable, an unsupported class, a constraint that is not in the
    problem. *)
Inductive invalid (p : t) : call -> Prop :=
| inv_add_point v position :
    is_Some (prototype p !! v) -> invalid p (Add_point v position)
| inv_set_point v position :
    prototype p !! v = None -> invalid p (Set_point v position)
| inv_get_point v :
    prototype p !! v = None -> invalid p (Get_point v)
| inv_rem_point v :
    prototype p !! v = None -> invalid p (Rem_point v)
| inv_missing_variable con v :
    v ∈ variables con -> prototype p !! v = None ->
    invalid p (Add_constraint con)
| inv_duplicate_distance con a b old :
    class con = DistanceConstraint -> variables con = [a; b] ->
    old ∈ ConstraintGraph.constraints (cg p) ->
    class old = DistanceConstraint ->
    a ∈ variables old -> b ∈ variables old ->
    invalid p (Add_constraint con)
| inv_duplicate_angle con a b c old :
    class con = AngleConstraint -> variables con = [a; b; c] ->
    old ∈ ConstraintGraph.constraints (cg p) ->
    class old = AngleConstraint ->
    a ∈ variables old -> c ∈ variables old ->
    variables old !! 1%nat = Some b ->
    invalid p (Add_constraint con)
| inv_duplicate_fix con v old :
    class con = FixConstraint -> variables con = [v] ->
    old ∈ ConstraintGraph.constraints (cg p) ->
    class old = FixConstraint -> v ∈ variables old ->
    invalid p (Add_constraint con)
| inv_unsupported con :
    class con = OtherConstraint -> invalid p (Add_constraint con)
| inv_absent con :
    con ∉ ConstraintGraph.constraints (cg p) ->
    invalid p (Rem_constraint con).

(** [verify]. [satisfied] is the method of the constraint's own class. *)
Section Verify.
Variable opaque_satisfied : Constraint -> mapping -> result bool.

(** The body of [for con in self.cg.constraints()], [sat] being the
    flag so far. *)
Fixpoint verify_loop (h : store) (cons : list Constraint)
    (solution : mapping) (sat : bool) : result bool :=
  match cons with
  | [] => Ok sat
  | con :: cons' =>
      if negb (solved (variables con) solution) then
        verify_loop h cons' solution false
      else
        ok ← satisfied opaque_satisfied h con solution;
        if negb ok then verify_loop h cons' solution false
        else verify_loop h cons' solution sat
  end.

Definition verify (w : World) (solution : option mapping) : result bool :=
  match solution with
  | None => Ok false
  | Some sol =>
      verify_loop (objects w)
        (ConstraintGraph.constraints (cg (problem w))) sol true
  end.



End Verify.




End GeometricProblem.

(** ** Clusters and configurations ([cluster], [configuration]) *)

(** The primitive clusters the solver creates, hashed by identity:
    [Rigid(vars)] and [Hedgehog(cvar, xvars)]. *)
Inductive Cluster : Type :=
| Rigid (clid : nat) (vars : list variable)
| Hedgehog (clid : nat) (cvar : variable) (xvars : list variable).

Definition is_Rigid (c : Cluster) : bool :=
  match c with Rigid _ _ => true | Hedgehog _ _ _ => false end.

(** [cluster.vars] *)
Definition cluster_vars (c : Cluster) : list variable :=
  match c with
  | Rigid _ vars => vars
  | Hedgehog _ cvar xvars => cvar :: xvars
  end.

#[global] Instance Cluster_eq_dec : EqDecision Cluster.
Proof. solve_decision. Defined.

#[global] Instance con_class_countable : Countable con_class.
Proof.
  refine (inj_countable'
    (fun k => match k with
              | DistanceConstraint => 0 | AngleConstraint => 1
              | FixConstraint => 2 | SelectionConstraint => 3
              | OtherConstraint => 4 end)%nat
    (fun n => match n with
              | 0 => DistanceConstraint | 1 => AngleConstraint
              | 2 => FixConstraint | 3 => SelectionConstraint
              | _ => OtherConstraint end)%nat _).
  by intros [].
Defined.

#[global] Instance Constraint_countable : Countable Constraint.
Proof.
  refine (inj_countable'
    (fun c => (cid c, class c, _variables c))
    (fun '(i, k, vs) => {| cid := i; class := k; _variables := vs |}) _).
  by intros [].
Defined.

#[global] Instance Cluster_countable : Countable Cluster.
Proof.
  refine (inj_countable'
    (fun c => match c with
              | Rigid i vs => inl (i, vs)
              | Hedgehog i cv xs => inr (i, cv, xs)
              end)
    (fun x => match x with
              | inl (i, vs) => Rigid i vs
              | inr (i, cv, xs) => Hedgehog i cv xs
              end) _).
  by intros [].
Defined.

(** The objects that are keys and values of the solver's [_map]. *)
Inductive pyobj : Type :=
| O_variable (v : variable)
| O_constraint (c : Constraint)
| O_cluster (c : Cluster).

#[global] Instance pyobj_eq_dec : EqDecision pyobj.
Proof. solve_decision. Defined.

#[global] Instance pyobj_countable : Countable pyobj.
Proof.
  refine (inj_countable'
    (fun o => match o with
              | O_variable v => inl v
              | O_constraint c => inr (inl c)
              | O_cluster c => inr (inr c)
              end)
    (fun x => match x with
              | inl v => O_variable v
              | inr (inl c) => O_constraint c
              | inr (inr c) => O_cluster c
              end) _).
  by intros [].
Defined.

Module Configuration.
(** Modelled from the spec: a configuration holds a mapping from
    variables to points ([map]); a solution of the cluster solver also
    says whether it is underconstrained (4.3). [Configuration(map)]
    builds one that is not. *)
Record t : Type := mk {
  map : mapping;
  underconstrained : bool
}.

Definition new (m : mapping) : t := {| map := m; underconstrained := false |}.
End Configuration.

(** The calls the solver makes on its cluster solver [self.dr]
    ([ClusterSolver2D] or [ClusterSolver3D], not part of the file).
    [dr_set_untyped] is a [set] with one configuration that has a
    coordinate which is not a number. *)
Inductive dr_call : Type :=
| dr_add (c : pyobj)
| dr_remove (c : pyobj)
| dr_set (c : pyobj) (configurations : list Configuration.t)
| dr_set_untyped (c : pyobj) (configuration : gmap string (list pyval))
| dr_set_root (c : pyobj).

(** ** GeometricCluster *)

Module GeometricCluster.
Definition OK : string := "well constrained".
Definition I_OVER : string := "incidental over-constrained".
Definition I_UNDER : string := "incidental under-constrained".
Definition S_OVER : string := "structral over-constrained".
Definition S_UNDER : string := "structural under-constrained".
Definition UNSOLVED : string := "unsolved".

(** The attributes of a result cluster. [subs] holds references to
    clusters (their index in the list of the clusters created). [flags]
    is an attribute that [__init__] does not create: [None] while it is
    absent. *)
Record t : Type := mk {
  variables : list variable;
  solutions : list mapping;
  subs : list nat;
  flag : string;
  flags : option string
}.

(** [GeometricCluster.__init__] *)
Definition init : t :=
  {| variables := []; solutions := []; subs := []; flag := OK;
     flags := None |}.
End GeometricCluster.

(** ** What the solver reads from its cluster solver *)

Module ClusterSolver.
(** Modelled from the spec: a merge method has [inputs()] and
    [outputs()] and may be a [PrototypeMethod] (6.2). *)
Record Method : Type := mkMethod {
  is_PrototypeMethod : bool;
  inputs : list Cluster;
  outputs : list Cluster
}.

(** Modelled from the spec: the answers of [rigids()], [get(cluster)],
    [methods()] and [top_level()] (6.2), and the [overconstrained] mark
    of a cluster (4.3), at the time of a [get_result]. *)
Record t : Type := mk {
  rigids : list Cluster;
  get : Cluster -> option (list Configuration.t);
  overconstrained : Cluster -> bool;
  methods : list Method;
  top_level : list Cluster
}.

(** A cluster solver that holds nothing. *)
Definition empty : t :=
  {| rigids := []; get := fun _ => None; overconstrained := fun _ => false;
     methods := []; top_level := [] |}.
End ClusterSolver.

(** ** GeometricSolver *)

(** Who calls [receive_notify]. *)
Inductive source : Type :=
| from_cg
| from_problem
| from_dr
| from_other.

(** [l.remove(x)]: the first occurrence goes, if there is one. *)
Fixpoint remove_first `{EqDecision A} (x : A) (l : list A) : list A :=
  match l with
  | [] => []
  | y :: l' => if decide (y = x) then l' else y :: remove_first x l'
  end.

Module GeometricSolver.
Import GeometricProblem.

(** The attributes of a solver. [dr] records the calls made on the
    cluster solver, oldest first; [next_clid] is the identity of the next
    cluster created. [self.problem] and [self.cg] are read from the
    [World] passed to each method. *)
Record t : Type := mk {
  dimension : Z;
  _map : gmap pyobj pyobj;
  fixvars : list pyobj;
  fixcluster : option pyobj;
  dr : list dr_call;
  next_clid : nat
}.

Definition call_dr (c : dr_call) : M t unit :=
  modify (fun s =>
    {| dimension := dimension s; _map := _map s; fixvars := fixvars s;
       fixcluster := fixcluster s; dr := dr s ++ [c];
       next_clid := next_clid s |}).

Definition set_map (f : gmap pyobj pyobj -> gmap pyobj pyobj) : M t unit :=
  modify (fun s =>
    {| dimension := dimension s; _map := f (_map s); fixvars := fixvars s;
       fixcluster := fixcluster s; dr := dr s;
       next_clid := next_clid s |}).

Definition set_fixvars (f : list pyobj -> list pyobj) : M t unit :=
  modify (fun s =>
    {| dimension := dimension s; _map := _map s; fixvars := f (fixvars s);
       fixcluster := fixcluster s; dr := dr s;
       next_clid := next_clid s |}).

Definition set_fixcluster (c : option pyobj) : M t unit :=
  modify (fun s =>
    {| dimension := dimension s; _map := _map s; fixvars := fixvars s;
       fixcluster := c; dr := dr s; next_clid := next_clid s |}).

(** The identity of a new cluster. *)
Definition new_id : M t nat :=
  id ← gets next_clid;
  modify (fun s =>
    {| dimension := dimension s; _map := _map s; fixvars := fixvars s;
       fixcluster := fixcluster s; dr := dr s; next_clid := S id |}) ;;
  mret id.

(** [self.get]: neither [GeometricSolver] nor anything else in the file
    defines a method [get] of the solver. *)
Definition self_get : M t (pyobj -> M t pyobj) :=
  raise (AttributeError "get").

(** [Cluster(...)]: the module imports [Rigid] and [Hedgehog] from
    [cluster], and no name [Cluster]. *)
Definition global_Cluster : M t (list pyobj -> M t pyobj) :=
  raise (NameError "Cluster").

(** [fixcluster], read without [self.]: no such local or global name. *)
Definition global_fixcluster : M t pyobj :=
  raise (NameError "fixcluster").

(** [_update_variable] *)
Definition _update_variable (w : World) (variable : variable) : M t unit :=
  m ← gets _map;
  cluster ← lift (getitem m (O_variable variable));
  proto ← lift (get_point (problem w) variable);
  let conf := Configuration.new {[ variable := proto ]} in
  call_dr (dr_set cluster [conf]).

(** [_add_variable] *)
Definition _add_variable (w : World) (var : variable) : M t unit :=
  m ← gets _map;
  if negb (contains m (O_variable var)) then
    id ← new_id;
    let rigid := Rigid id [var] in
    set_map (fun m => <[O_variable var := O_cluster rigid]> m) ;;
    set_map (fun m => <[O_cluster rigid := O_variable var]> m) ;;
    call_dr (dr_add (O_cluster rigid)) ;;
    _update_variable w var
  else mret tt.

(** [_rem_variable] *)
Definition _rem_variable (var : variable) : M t unit :=
  m ← gets _map;
  if contains m (O_variable var) then
    cluster ← lift (getitem m (O_variable var));
    call_dr (dr_remove cluster) ;;
    set_map (fun m => delete (O_variable var) m)
  else mret tt.

(** [for var in vars: map[var] = self.problem.get_fix(var).get_parameter()] *)
Fixpoint fix_parameters (w : World) (vars : list variable) (acc : mapping)
    : result mapping :=
  match vars with
  | [] => Ok acc
  | var :: vars' =>
      f ← get_fix (problem w) var;
      match f with
      | None => Raise (AttributeError "get_parameter")
      | Some con =>
          match get_parameter (objects w) con with
          | VVector pos => fix_parameters w vars' (<[var := pos]> acc)
          | _ => Raise TypeError
          end
      end
  end.

(** [_update_fix] *)
Definition _update_fix (w : World) : M t unit :=
  fc ← gets fixcluster;
  match fc with
  | Some _ =>
      fixcluster ← global_fixcluster;
      vars ← match fixcluster with
              | O_cluster c => mret (cluster_vars c)
              | _ => raise (AttributeError "vars")
              end;
      map ← lift (fix_parameters w vars ∅);
      let conf := Configuration.new map in
      g ← global_fixcluster;
      call_dr (dr_set g [conf])
  | None => mret tt
  end.

(** [_update_constraint]. A parameter that is not a number fails at its
    first numeric use: for an angle in [math.cos(angle)], before anything is
    pushed; for a distance inside [con.satisfied], after the configuration
    that holds it has been pushed. *)
Definition _update_constraint (w : World) (con : Constraint) : M t unit :=
  match class con with
  | AngleConstraint =>
      m ← gets _map;
      hog ← lift (getitem m (O_constraint con));
      let vars := variables con in
      v0 ← lift (index vars 0);
      v1 ← lift (index vars 1);
      v2 ← lift (index vars 2);
      angle ← lift (as_float (get_parameter (objects w) con));
      d ← gets dimension;
      let pad := if bool_decide (d = 3%Z) then [0%R] else [] in
      let p0 := [1%R; 0%R] ++ pad in
      let p1 := [0%R; 0%R] ++ pad in
      let p2 := [cos angle; sin angle] ++ pad in
      let conf :=
        Configuration.new (<[v2 := p2]> (<[v1 := p1]> (<[v0 := p0]> ∅))) in
      call_dr (dr_set hog [conf]) ;;
      ok ← lift (AngleConstraint_satisfied (objects w) con
                   (Configuration.map conf));
      if ok : bool then mret tt else raise AssertionError
  | DistanceConstraint =>
      m ← gets _map;
      rig ← lift (getitem m (O_constraint con));
      let vars := variables con in
      v0 ← lift (index vars 0);
      v1 ← lift (index vars 1);
      d ← gets dimension;
      match get_parameter (objects w) con with
      | VFloat dist =>
          let pad := if bool_decide (d = 3%Z) then [0%R] else [] in
          let p0 := [0%R; 0%R] ++ pad in
          let p1 := [dist; 0%R] ++ pad in
          let conf := Configuration.new (<[v1 := p1]> (<[v0 := p0]> ∅)) in
          call_dr (dr_set rig [conf]) ;;
          ok ← lift (DistanceConstraint_satisfied (objects w) con
                       (Configuration.map conf));
          if ok : bool then mret tt else raise AssertionError
      | dist =>
          let pad := if bool_decide (d = 3%Z) then [VFloat 0] else [] in
          let p0 := [VFloat 0; VFloat 0] ++ pad in
          let p1 := [dist; VFloat 0] ++ pad in
          call_dr (dr_set_untyped rig (<[v1 := p1]> (<[v0 := p0]> ∅))) ;;
          raise TypeError
      end
  | FixConstraint => _update_fix w
  | _ => raise (StandardError "unknown constraint type")
  end.

(** The state after [self.dr.set(cluster, [Configuration(m)])]. *)
Definition pushed (s : t) (cluster : pyobj) (m : mapping) : t :=
  {| dimension := dimension s; _map := _map s; fixvars := fixvars s;
     fixcluster := fixcluster s;
     dr := dr s ++ [dr_set cluster [Configuration.new m]];
     next_clid := next_clid s |}.

(** The state after a new primitive [cluster] is mapped to [con] both
    ways and added to the cluster solver. *)
Definition mapped (s : t) (con : Constraint) (cluster : Cluster) : t :=
  {| dimension := dimension s;
     _map := <[O_cluster cluster := O_constraint con]>
               (<[O_constraint con := O_cluster cluster]> (_map s));
     fixvars := fixvars s; fixcluster := fixcluster s;
     dr := dr s ++ [dr_add (O_cluster cluster)];
     next_clid := S (next_clid s) |}.

(** The reference configuration of a constraint with the parameter [x]:
    for a distance on (a, b), a at the origin and b at (x, 0[, 0]); for
    an angle on (a, b, c), b at the origin, a at (1, 0[, 0]) and c at
    (cos x, sin x[, 0]). *)
Definition reference (dim : Z) (con : Constraint) (x : R) : mapping :=
  let pad := if bool_decide (dim = 3%Z) then [0%R] else [] in
  match class con, variables con with
  | DistanceConstraint, [a; b] =>
      <[b := [x; 0%R] ++ pad]> (<[a := [0%R; 0%R] ++ pad]> ∅)
  | AngleConstraint, [a; b; c] =>
      <[c := [cos x; sin x] ++ pad]>
        (<[b := [0%R; 0%R] ++ pad]> (<[a := [1%R; 0%R] ++ pad]> ∅))
  | _, _ => ∅
  end.

(** The parameters for which the reference configuration is a
    realization: a distance that is not negative; an angle in (-pi, pi],
    the range of the signed angle, in 2D, and in [-pi, pi] in 3D, where
    the angle is compared with its absolute value. *)
Definition principal (dim : Z) (con : Constraint) (x : R) : Prop :=
  match class con with
  | DistanceConstraint =>
      length (variables con) = 2%nat /\ (0 <= x)%R
  | AngleConstraint =>
      length (variables con) = 3%nat /\
      if bool_decide (dim = 3%Z) then (- PI <= x <= PI)%R
      else (- PI < x <= PI)%R
  | _ => False
  end.

(** The rest of the [FixConstraint] branch of [_add_constraint], from
    [self.fixvars.append(x)] on, [x] being what [self.get(...)]
    returned. *)
Definition append_fixvar (w : World) (x : pyobj) : M t unit :=
  set_fixvars (fun l => l ++ [x]) ;;
  fv ← gets fixvars;
  (if bool_decide (GeometricProblem.dimension (problem w)
                   ≤ Z.of_nat (length fv))%Z
   then
     Cluster ← global_Cluster;
     c ← Cluster fv;
     set_fixcluster (Some c) ;;
     call_dr (dr_add c) ;;
     g ← global_fixcluster;
     call_dr (dr_set_root g)
   else mret tt) ;;
  _update_fix w.

(** [_add_constraint] *)
Definition _add_constraint (w : World) (con : Constraint) : M t unit :=
  match class con with
  | AngleConstraint =>
      let vars := variables con in
      v1 ← lift (index vars 1);
      v0 ← lift (index vars 0);
      v2 ← lift (index vars 2);
      id ← new_id;
      let hog := Hedgehog id v1 [v0; v2] in
      set_map (fun m => <[O_constraint con := O_cluster hog]> m) ;;
      set_map (fun m => <[O_cluster hog := O_constraint con]> m) ;;
      call_dr (dr_add (O_cluster hog)) ;;
      _update_constraint w con
  | DistanceConstraint =>
      let vars := variables con in
      v0 ← lift (index vars 0);
      v1 ← lift (index vars 1);
      id ← new_id;
      let rig := Rigid id [v0; v1] in
      set_map (fun m => <[O_constraint con := O_cluster rig]> m) ;;
      set_map (fun m => <[O_cluster rig := O_constraint con]> m) ;;
      call_dr (dr_add (O_cluster rig)) ;;
      _update_constraint w con
  | FixConstraint =>
      fc ← gets fixcluster;
      match fc with
      | Some c => call_dr (dr_remove c)
      | None => mret tt
      end ;;
      get ← self_get;
      v0 ← lift (index (variables con) 0);
      x ← get (O_variable v0);
      append_fixvar w x
  | _ => mret tt
  end.

(** The state after [if self.fixcluster != None:
    self.dr.remove(self.fixcluster)]. *)
Definition after_remove (s : t) : t :=
  match fixcluster s with
  | Some c =>
      {| dimension := dimension s; _map := _map s; fixvars := fixvars s;
         fixcluster := fixcluster s; dr := dr s ++ [dr_remove c];
         next_clid := next_clid s |}
  | None => s
  end.

(** [_rem_constraint] *)
Definition _rem_constraint (w : World) (con : Constraint) : M t unit :=
  if bool_decide (class con = FixConstraint) then
    fc ← gets fixcluster;
    match fc with
    | Some c => call_dr (dr_remove c)
    | None => mret tt
    end ;;
    get ← self_get;
    v0 ← lift (index (variables con) 0);
    var ← get (O_variable v0);
    fv ← gets fixvars;
    (if mem var fv then set_fixvars (remove_first var) else mret tt) ;;
    fv ← gets fixvars;
    if bool_decide (Z.of_nat (length fv)
                    < GeometricProblem.dimension (problem w))%Z
    then set_fixcluster None
    else
      Cluster ← global_Cluster;
      c ← Cluster fv;
      set_fixcluster (Some c) ;;
      call_dr (dr_add c) ;;
      call_dr (dr_set_root c)
  else
    m ← gets _map;
    if contains m (O_constraint con) then
      cluster ← lift (getitem m (O_constraint con));
      call_dr (dr_remove cluster) ;;
      set_map (fun m => delete (O_constraint con) m)
    else mret tt.

(** The objects of a [get_result]: the result clusters created so far
    (a cluster is referred to by its index) and the local dict [map],
    whose keys and values are clusters of the cluster solver ([inl]) and
    result clusters ([inr]). *)
Record frame : Type := mkFrame {
  clusters : list GeometricCluster.t;
  map : gmap (Cluster + nat) (Cluster + nat)
}.

(** [GeometricCluster()] *)
Definition new_cluster : M frame nat :=
  cs ← gets clusters;
  modify (fun f =>
    {| clusters := clusters f ++ [GeometricCluster.init]; map := map f |}) ;;
  mret (length cs).

(** An assignment to attributes of the result cluster [r]. *)
Definition update (r : nat) (f : GeometricCluster.t -> GeometricCluster.t)
    : M frame unit :=
  modify (fun fr => {| clusters := alter f r (clusters fr); map := map fr |}).

(** [map[k] = v] *)
Definition set_item (k v : Cluster + nat) : M frame unit :=
  modify (fun fr => {| clusters := clusters fr; map := <[k := v]> (map fr) |}).

(** [map[c]] for a cluster [c] of the cluster solver, a result cluster. *)
Definition geo (c : Cluster) : M frame nat :=
  m ← gets map;
  x ← lift (getitem m (inl c));
  match x with
  | inr r => mret r
  | inl _ => raise (AttributeError "subs")
  end.

(** The attributes of the result cluster [r]. *)
Definition read (r : nat) : M frame GeometricCluster.t :=
  cs ← gets clusters;
  lift (index cs r).

(** The first loop of [get_result]: a result cluster for each rigid. *)
Definition map_rigid (d : ClusterSolver.t) (drcluster : Cluster)
    : M frame unit :=
  geocluster ← new_cluster;
  set_item (inl drcluster) (inr geocluster) ;;
  set_item (inr geocluster) (inl drcluster) ;;
  let vars := cluster_vars drcluster in
  let solutions := ClusterSolver.get d drcluster in
  let maps := List.map Configuration.map (default [] solutions) in
  let underconstrained :=
    existsb Configuration.underconstrained (default [] solutions) in
  let flag :=
    if ClusterSolver.overconstrained d drcluster then GeometricCluster.S_OVER
    else if bool_decide (length maps = 0%nat) then GeometricCluster.I_OVER
    else if underconstrained then GeometricCluster.I_UNDER
    else GeometricCluster.OK in
  update geocluster (fun g =>
    {| GeometricCluster.variables := GeometricCluster.variables g ++ vars;
       GeometricCluster.solutions := GeometricCluster.solutions g ++ maps;
       GeometricCluster.subs := GeometricCluster.subs g;
       GeometricCluster.flag := flag;
       GeometricCluster.flags := GeometricCluster.flags g |}).

(** [parent.subs.append(map[inp])] *)
Definition append_sub (parent : nat) (inp : Cluster) : M frame unit :=
  child ← geo inp;
  update parent (fun g =>
    {| GeometricCluster.variables := GeometricCluster.variables g;
       GeometricCluster.solutions := GeometricCluster.solutions g;
       GeometricCluster.subs := GeometricCluster.subs g ++ [child];
       GeometricCluster.flag := GeometricCluster.flag g;
       GeometricCluster.flags := GeometricCluster.flags g |}).

(** The second loop: the rigid inputs of a method become the
    subclusters of its rigid outputs. *)
Definition map_method (method : ClusterSolver.Method) : M frame unit :=
  for_each (ClusterSolver.outputs method) (fun out =>
    if is_Rigid out then
      parent ← geo out;
      for_each (ClusterSolver.inputs method) (fun inp =>
        if is_Rigid inp then append_sub parent inp else mret tt)
    else mret tt).

(** The third loop: the output of a prototype method takes the
    subclusters of its input. *)
Definition map_selection (method : ClusterSolver.Method) : M frame unit :=
  if ClusterSolver.is_PrototypeMethod method then
    incluster ← lift (index (ClusterSolver.inputs method) 0);
    outcluster ← lift (index (ClusterSolver.outputs method) 0);
    geoin ← geo incluster;
    geoout ← geo outcluster;
    g ← read geoin;
    update geoout (fun o =>
      {| GeometricCluster.variables := GeometricCluster.variables o;
         GeometricCluster.solutions := GeometricCluster.solutions o;
         GeometricCluster.subs := GeometricCluster.subs g;
         GeometricCluster.flag := GeometricCluster.flag o;
         GeometricCluster.flags := GeometricCluster.flags o |})
  else mret tt.

(** The end of [get_result]: the result by the number of rigids at the
    top level. *)
Definition top_level_result (d : ClusterSolver.t) : M frame nat :=
  let rigids := List.filter is_Rigid (ClusterSolver.top_level d) in
  match rigids with
  | [] =>
      result ← new_cluster;
      update result (fun g =>
        {| GeometricCluster.variables := [];
           GeometricCluster.solutions := [];
           GeometricCluster.subs := [];
           GeometricCluster.flag := GeometricCluster.flag g;
           GeometricCluster.flags := Some GeometricCluster.UNSOLVED |}) ;;
      mret result
  | [rigid] => geo rigid
  | _ =>
      result ← new_cluster;
      update result (fun g =>
        {| GeometricCluster.variables := GeometricCluster.variables g;
           GeometricCluster.solutions := GeometricCluster.solutions g;
           GeometricCluster.subs := GeometricCluster.subs g;
           GeometricCluster.flag := GeometricCluster.S_UNDER;
           GeometricCluster.flags := GeometricCluster.flags g |}) ;;
      for_each rigids (append_sub result) ;;
      mret result
  end.

(** [get_result], the cluster solver answering as [d]: the clusters
    created and a reference to the one returned. *)
Definition get_result (d : ClusterSolver.t) : frame * result nat :=
  (for_each (ClusterSolver.rigids d) (map_rigid d) ;;
   for_each (ClusterSolver.methods d) map_method ;;
   for_each (ClusterSolver.methods d) map_selection ;;
   top_level_result d)
    {| clusters := []; map := ∅ |}.

(** The cluster that [get_result] returns, when it returns. *)
Definition returned (r : frame * result nat) : option GeometricCluster.t :=
  match r with
  | (fr, Ok i) => clusters fr !! i
  | (_, Raise _) => None
  end.

(** What the first loop of [get_result] gives the result cluster of the
    rigid [c]: the mappings of its solutions, and its flag. *)
Definition rigid_solutions (d : ClusterSolver.t) (c : Cluster)
    : list mapping :=
  List.map Configuration.map (default [] (ClusterSolver.get d c)).

Definition rigid_flag (d : ClusterSolver.t) (c : Cluster) : string :=
  if ClusterSolver.overconstrained d c then GeometricCluster.S_OVER
  else if bool_decide (length (rigid_solutions d c) = 0%nat)
       then GeometricCluster.I_OVER
  else if existsb Configuration.underconstrained
            (default [] (ClusterSolver.get d c))
       then GeometricCluster.I_UNDER
  else GeometricCluster.OK.



(** Every entry of [map] from a rigid leads to a result cluster that has
    the variables, the solutions and the flag of the rigid. *)
Definition tracked (d : ClusterSolver.t) (fr : frame) : Prop :=
  forall c i, map fr !! inl c = Some (inr i) ->
    exists g, clusters fr !! i = Some g /\
      GeometricCluster.variables g = cluster_vars c /\
      GeometricCluster.solutions g = rigid_solutions d c /\
      GeometricCluster.flag g = rigid_flag d c /\
      GeometricCluster.flags g = None.


(** [receive_notify]. [w] is the problem at the time of the call. *)
Definition receive_notify (w : World) (object : source) (msg : message)
    : M t unit :=
  match object with
  | from_cg =>
      let '(type, d) := msg in
      if bool_decide (type = "add_constraint") then
        match d with
        | D_constraint c => _add_constraint w c
        | _ => raise TypeError
        end
      else if bool_decide (type = "rem_constraint") then
        match d with
        | D_constraint c => _rem_constraint w c
        | _ => raise TypeError
        end
      else if bool_decide (type = "add_variable") then
        match d with
        | D_variable v => _add_variable w v
        | _ => raise TypeError
        end
      else if bool_decide (type = "rem_variable") then
        match d with
        | D_variable v => _rem_variable v
        | _ => raise TypeError
        end
      else raise (StandardError ("unknown message type" +:+ type))
  | from_problem =>
      let '(type, d) := msg in
      if bool_decide (type = "set_point") then
        match d with
        | D_pair (D_variable v) _ => _update_variable w v
        | _ => raise TypeError
        end
      else if bool_decide (type = "set_parameter") then
        match d with
        | D_pair (D_constraint c) _ => _update_constraint w c
        | _ => raise TypeError
        end
      else raise (StandardError ("unknown message type" +:+ type))
  | from_dr => mret tt
  | from_other => raise (StandardError "message from unknown source")
  end.

(** The attributes after the first half of [__init__]. *)
Definition blank (dimension : Z) : t :=
  {| dimension := dimension; _map := ∅; fixvars := []; fixcluster := None;
     dr := []; next_clid := 0 |}.

(** [__init__]: the dimension check, then the current state of the
    constraint graph: the variables, the distances, the rest. *)
Definition init (w : World) : M t unit :=
  let d := GeometricProblem.dimension (problem w) in
  if bool_decide (d = 2%Z) || bool_decide (d = 3%Z) then
    for_each (ConstraintGraph.variables (cg (problem w)))
      (_add_variable w) ;;
    for_each (ConstraintGraph.constraints (cg (problem w)))
      (fun con =>
         if bool_decide (class con = DistanceConstraint)
         then _add_constraint w con else mret tt) ;;
    for_each (ConstraintGraph.constraints (cg (problem w)))
      (fun con =>
         if negb (bool_decide (class con = DistanceConstraint))
         then _add_constraint w con else mret tt)
  else
    raise (StandardError
             "Do not know how to solve problems of dimension > 3.").

(** [GeometricSolver(problem)] *)
Definition new (w : World) : t * result unit :=
  init w (blank (GeometricProblem.dimension (problem w))).

(** The events of the constraint graph, each with the problem as it is
    when the event arrives, handled one after the other; the first raise
    ends the run. *)
Fixpoint process (events : list (World * message)) : M t unit :=
  match events with
  | [] => mret tt
  | (w, msg) :: events' => receive_notify w from_cg msg ;; process events'
  end.

End GeometricSolver.

(** ** Scenarios *)

Module Scenario.
Import GeometricProblem.

(** The predicate of a constraint class defined outside the file, for the
    scenarios (none of them has such a constraint). *)
Definition no_opaque (con : Constraint) (m : mapping) : result bool :=
  Ok true.

(** A 2D problem with the points A and B, both fixed at the origin. *)
Definition two_fixes : M World (Constraint * Constraint) :=
  add_point "A" [1; 0]%R ;;
  add_point "B" [0; 0]%R ;;
  fa ← new_FixConstraint "A" [0; 0]%R;
  add_constraint fa ;;
  fb ← new_FixConstraint "B" [0; 0]%R;
  add_constraint fb ;;
  mret (fa, fb).

Definition fix_A : Constraint :=
  {| cid := 0; class := FixConstraint; _variables := ["A"] |}.
Definition fix_B : Constraint :=
  {| cid := 1; class := FixConstraint; _variables := ["B"] |}.

Definition two_fixes_world : World := (two_fixes (new_world 2)).1.

(** A at (1, 0), B at the origin. *)
Definition A_off_B_on : mapping := <["B" := [0; 0]%R]> {[ "A" := [1; 0]%R ]}.


(** A and B at the origin, where the two fixes want them. *)
Definition A_on_B_on : mapping := <["B" := [0; 0]%R]> {[ "A" := [0; 0]%R ]}.

(** A 2D problem with the points A, B and C and the angle at B from A to
    C; a second constraint object, the angle at B from C to A, not added
    yet. *)
Definition one_angle : M World (Constraint * Constraint) :=
  add_point "A" [0; 0]%R ;;
  add_point "B" [1; 0]%R ;;
  add_point "C" [1; 1]%R ;;
  abc ← new_AngleConstraint "A" "B" "C" 1;
  add_constraint abc ;;
  cba ← new_AngleConstraint "C" "B" "A" 2;
  mret (abc, cba).

Definition angle_ABC : Constraint :=
  {| cid := 0; class := AngleConstraint; _variables := ["A"; "B"; "C"] |}.
Definition angle_CBA : Constraint :=
  {| cid := 1; class := AngleConstraint; _variables := ["C"; "B"; "A"] |}.

Definition one_angle_world : World := (one_angle (new_world 2)).1.

(** A 2D problem with the point A; [FixConstraint("A", (0, 0))] is
    created and added, then its parameter is set to (1, 1). *)
Definition fix_then_set : M World Constraint :=
  add_point "A" [0; 0]%R ;;
  f ← new_FixConstraint "A" [0; 0]%R;
  add_constraint f ;;
  set_parameter f (VVector [1; 1]%R) ;;
  mret f.

(** The same with [DistanceConstraint("A", "B", 1)], set to 2. *)
Definition distance_then_set : M World Constraint :=
  add_point "A" [0; 0]%R ;;
  add_point "B" [1; 0]%R ;;
  d ← new_DistanceConstraint "A" "B" 1;
  add_constraint d ;;
  set_parameter d (VFloat 2) ;;
  mret d.

Definition distance_AB : Constraint :=
  {| cid := 0; class := DistanceConstraint; _variables := ["A"; "B"] |}.

(** A 3D problem with the point P fixed at the origin. *)
Definition fix_3d : M World Constraint :=
  add_point "P" [0; 0; 0]%R ;;
  f ← new_FixConstraint "P" [0; 0; 0]%R;
  add_constraint f ;;
  mret f.

Definition fix_P : Constraint :=
  {| cid := 0; class := FixConstraint; _variables := ["P"] |}.

Definition fix_3d_world : World := (fix_3d (new_world 3)).1.

(** What the constraint graph emitted between two states of the
    problem, each event with the problem as it is afterwards. *)
Definition events (before after : World) : list (World * message) :=
  List.map (fun msg => (after, msg))
    (drop (length (ConstraintGraph.sent (cg (problem before))))
       (ConstraintGraph.sent (cg (problem after)))).

(** A solver on an empty 2D problem; then [add_point("A", (0, 0))] and
    [rem_point("A")]. *)
Definition empty_world : World := new_world 2.
Definition with_A : World := (add_point "A" [0; 0]%R empty_world).1.
Definition without_A : World := (rem_point "A" with_A).1.

Definition add_then_remove : GeometricSolver.t * result unit :=
  GeometricSolver.process
    (events empty_world with_A ++ events with_A without_A)
    (GeometricSolver.new empty_world).1.

(** A solver on a 2D problem with the points A and B; then the two
    fixes of [two_fixes] are added. *)
Definition with_A_B : World :=
  ((add_point "A" [1; 0]%R ;; add_point "B" [0; 0]%R) (new_world 2)).1.

Definition solver_A_B : GeometricSolver.t := (GeometricSolver.new with_A_B).1.

(** The same problem, with [DistanceConstraint("A", "B", -1)] added. *)
Definition negative_distance : Constraint :=
  {| cid := 0; class := DistanceConstraint; _variables := ["A"; "B"] |}.

Definition with_negative_distance : World :=
  ((d ← new_DistanceConstraint "A" "B" (-1); add_constraint d) with_A_B).1.

(** The same problem, with [DistanceConstraint("A", "B", 2)] added, and
    the solver once it has mapped the constraint to a rigid. *)
Definition with_distance : World :=
  ((d ← new_DistanceConstraint "A" "B" 2; add_constraint d) with_A_B).1.

Definition solver_distance : GeometricSolver.t :=
  GeometricSolver.mapped solver_A_B distance_AB (Rigid 2 ["A"; "B"]).


End Scenario.

(* ================================================================== *)
(** * Properties *)

(** Unfolding of the monadic operations. *)
Ltac run :=
  unfold mbind, M_bind, result_bind, mret, M_ret, result_ret, gets, lift,
    raise, modify; simpl.

(* ================================================================== *)

(** ** Basic facts about the numeric model *)

Lemma tolerance_pos : (0 < tolerance)%R.
Proof. unfold tolerance. apply Rinv_0_lt_compat. lra. Qed.

Lemma tolerance_small : (tolerance < 1 / 2)%R.
Proof.
  unfold tolerance.
  apply (Rmult_lt_reg_l 1000000); [lra |].
  rewrite Rinv_r by lra. lra.
Qed.

Lemma tol_eq_true (a b : R) :
  tol_eq a b = true <-> (Rabs (a - b) <= tolerance)%R.
Proof.
  unfold tol_eq. destruct (Rle_dec _ _); split; intros; try done.
Qed.

Lemma tol_eq_refl (a : R) : tol_eq a a = true.
Proof.
  apply tol_eq_true. replace (a - a)%R with 0%R by lra.
  rewrite Rabs_R0. pose proof tolerance_pos. lra.
Qed.

Lemma tol_eq_far (a b : R) : (1 <= Rabs (a - b))%R -> tol_eq a b = false.
Proof.
  intros H. destruct (tol_eq a b) eqn:E; [| done].
  apply tol_eq_true in E. pose proof tolerance_small. lra.
Qed.

(** ** [GeometricProblem.verify] *)

Section VerifyFacts.
Import GeometricProblem.
Variable opaque_satisfied : Constraint -> mapping -> result bool.
Variable h : store.
Variable solution : mapping.

Lemma solved_true (vars : list variable) :
  solved vars solution = true <->
  forall v, v ∈ vars -> is_Some (solution !! v).
Proof.
  induction vars as [| v vars IH]; simpl.
  - split; [intros _ v Hv; inversion Hv | done].
  - unfold contains. case_bool_decide as Hv; simpl.
    + rewrite IH. split.
      * intros Hall x Hx. apply elem_of_cons in Hx as [-> | Hx]; auto.
      * intros Hall x Hx. apply Hall. by right.
    + split; [done |]. intros Hall. destruct Hv. apply Hall. by left.
Qed.

Lemma solved_false (vars : list variable) :
  solved vars solution = false <->
  exists v, v ∈ vars /\ solution !! v = None.
Proof.
  split.
  - intros Hs. induction vars as [| v vars IH]; simpl in Hs; [done |].
    unfold contains in Hs. case_bool_decide as Hv; simpl in Hs.
    + destruct (IH Hs) as (x & Hx & Hn). exists x. split; [by right | done].
    + exists v. split; [by left |]. by apply eq_None_not_Some.
  - intros (v & Hv & Hn). destruct (solved vars solution) eqn:Hs; [| done].
    rewrite solved_true in Hs. specialize (Hs v Hv).
    rewrite Hn in Hs. by destruct Hs.
Qed.


End VerifyFacts.

(** ** The constraint classes *)

(** What [FixConstraint.satisfied] computes on a point with at least two
    coordinates: it cannot return [True]. *)
Lemma FixConstraint_satisfied_point (h : store) (con : Constraint)
    (m : mapping) (v : variable) (vs : list variable) (a0 a1 p0 : R)
    (a p : vector) :
  _variables con = v :: vs ->
  m !! v = Some (a0 :: a1 :: a) ->
  get_parameter h con = VVector (p0 :: p) ->
  FixConstraint_satisfied h con m
  = if tol_eq a0 p0 then Raise (AttributeError "value") else Ok false.
Proof.
  intros Hv Hm Hp. unfold FixConstraint_satisfied, getitem.
  rewrite Hv. simpl. rewrite Hm. simpl. rewrite Hp. simpl.
  by destruct (tol_eq a0 p0).
Qed.

Lemma FixConstraint_satisfied_not_true (h : store) (con : Constraint)
    (m : mapping) :
  FixConstraint_satisfied h con m <> Ok true.
Proof.
  unfold FixConstraint_satisfied, getitem.
  destruct (index (_variables con) 0) as [v0 |]; simpl; [| done].
  destruct (m !! v0) as [a |]; simpl; [| done].
  destruct (index a 0) as [a0 |]; simpl; [| done].
  destruct (subscript (get_parameter h con) 0) as [p0 |]; simpl; [| done].
  destruct (tol_eq a0 p0); [| done].
  by destruct (index a 1).
Qed.

(** ** The scenarios, computed *)

Lemma two_fixes_run :
  Scenario.two_fixes (GeometricProblem.new_world 2)
  = (Scenario.two_fixes_world, Ok (Scenario.fix_A, Scenario.fix_B)).
Proof. vm_compute. reflexivity. Qed.

(** Every call of the scenarios returns normally. *)
Lemma scenarios_run :
  (Scenario.one_angle (GeometricProblem.new_world 2)).2
  = Ok (Scenario.angle_ABC, Scenario.angle_CBA) /\
  (Scenario.fix_3d (GeometricProblem.new_world 3)).2 = Ok Scenario.fix_P /\
  (GeometricProblem.add_point "A" [0; 0]%R Scenario.empty_world).2 = Ok tt /\
  (GeometricProblem.rem_point "A" Scenario.with_A).2 = Ok tt /\
  (GeometricSolver.new Scenario.empty_world).2 = Ok tt /\
  (GeometricSolver.new Scenario.with_A_B).2 = Ok tt /\
  ((d ← GeometricProblem.new_DistanceConstraint "A" "B" (-1);
    GeometricProblem.add_constraint d) Scenario.with_A_B).2 = Ok tt /\
  ((d ← GeometricProblem.new_DistanceConstraint "A" "B" 2;
    GeometricProblem.add_constraint d) Scenario.with_A_B).2 = Ok tt.
Proof. repeat split; vm_compute; reflexivity. Qed.

Lemma two_fixes_constraints :
  ConstraintGraph.constraints
    (GeometricProblem.cg (GeometricProblem.problem Scenario.two_fixes_world))
  = [Scenario.fix_A; Scenario.fix_B].
Proof. vm_compute. reflexivity. Qed.

Lemma two_fixes_parameter (con : Constraint) :
  con ∈ [Scenario.fix_A; Scenario.fix_B] ->
  get_parameter (GeometricProblem.objects Scenario.two_fixes_world) con
  = VVector [0; 0]%R.
Proof.
  intros H. apply elem_of_cons in H as [-> | H];
    [| apply list_elem_of_singleton in H as ->]; vm_compute; reflexivity.
Qed.

Lemma fix_A_off (m : mapping) (a : vector) :
  m !! "A" = Some (1 :: 0 :: a)%R ->
  satisfied Scenario.no_opaque
    (GeometricProblem.objects Scenario.two_fixes_world) Scenario.fix_A m
  = Ok false.
Proof.
  intros Hm. unfold satisfied. simpl.
  rewrite (FixConstraint_satisfied_point _ _ m "A" [] 1 0 0 a [0%R]);
    [| done | done | apply two_fixes_parameter; by left].
  rewrite tol_eq_far; [done |].
  replace (1 - 0)%R with 1%R by lra. rewrite Rabs_R1. lra.
Qed.


Lemma fix_A_on (m : mapping) (a : vector) :
  m !! "A" = Some (0 :: 0 :: a)%R ->
  satisfied Scenario.no_opaque
    (GeometricProblem.objects Scenario.two_fixes_world) Scenario.fix_A m
  = Raise (AttributeError "value").
Proof.
  intros Hm. unfold satisfied. simpl.
  rewrite (FixConstraint_satisfied_point _ _ m "A" [] 0 0 0 a [0%R]);
    [| done | done | apply two_fixes_parameter; by left].
  by rewrite tol_eq_refl.
Qed.

Lemma fix_B_on (m : mapping) (a : vector) :
  m !! "B" = Some (0 :: 0 :: a)%R ->
  satisfied Scenario.no_opaque
    (GeometricProblem.objects Scenario.two_fixes_world) Scenario.fix_B m
  = Raise (AttributeError "value").
Proof.
  intros Hm. unfold satisfied. simpl.
  rewrite (FixConstraint_satisfied_point _ _ m "B" [] 0 0 0 a [0%R]);
    [| done | done | apply two_fixes_parameter; right; by left].
  by rewrite tol_eq_refl.
Qed.

(** ** [GeometricProblem.verify]: the claims *)

(** C10. [verify(None)] returns [False] in every state of the problem, a
    problem without constraints included, and does not raise. *)
Theorem verify_None (opaque_satisfied : Constraint -> mapping -> result bool)
    (w : GeometricProblem.World) :
  GeometricProblem.verify opaque_satisfied w None = Ok false.
Proof. reflexivity. Qed.

(** C1. With A and B fixed at the origin, [verify] raises where the claim
    has a boolean. For the mapping with A at (1, 0) and B at the origin,
    the fix of A has its variable in the mapping and its [satisfied]
    returns [False], so that the claim has [verify] return [False];
    [verify] goes on to the fix of B, whose [satisfied] raises
    [AttributeError], and raises. For the mapping with both at the origin,
    every variable is in the mapping and every fixed point is on its
    target; [verify] raises as well. *)
Theorem verify_raises_after_failure :
  let w := Scenario.two_fixes_world in
  let h := GeometricProblem.objects w in
  let cons :=
    ConstraintGraph.constraints (GeometricProblem.cg (GeometricProblem.problem w)) in
  (exists con, con ∈ cons /\
     (forall v, v ∈ variables con -> is_Some (Scenario.A_off_B_on !! v)) /\
     satisfied Scenario.no_opaque h con Scenario.A_off_B_on = Ok false) /\
  GeometricProblem.verify Scenario.no_opaque w (Some Scenario.A_off_B_on)
  = Raise (AttributeError "value") /\
  (forall con v, con ∈ cons -> v ∈ variables con ->
     Scenario.A_on_B_on !! v = Some [0; 0]%R /\
     get_parameter h con = VVector [0; 0]%R) /\
  GeometricProblem.verify Scenario.no_opaque w (Some Scenario.A_on_B_on)
  = Raise (AttributeError "value").
Proof.
  assert (HA : Scenario.A_off_B_on !! "A" = Some [1; 0]%R)
    by (vm_compute; reflexivity).
  assert (HB : Scenario.A_off_B_on !! "B" = Some [0; 0]%R)
    by (vm_compute; reflexivity).
  assert (HA' : Scenario.A_on_B_on !! "A" = Some [0; 0]%R)
    by (vm_compute; reflexivity).
  assert (HB' : Scenario.A_on_B_on !! "B" = Some [0; 0]%R)
    by (vm_compute; reflexivity).
  simpl. split; [| split; [| split]].
  - exists Scenario.fix_A. split; [| split].
    + rewrite two_fixes_constraints. by left.
    + intros v Hv. apply list_elem_of_singleton in Hv as ->.
      rewrite HA. eauto.
    + by apply (fix_A_off _ []).
  - unfold GeometricProblem.verify. rewrite two_fixes_constraints. simpl.
    unfold contains. rewrite HA, HB. simpl.
    rewrite (fix_A_off _ []) by done. simpl.
    by rewrite (fix_B_on _ []).
  - intros con v Hcon Hv. rewrite two_fixes_constraints in Hcon.
    split; [| by apply two_fixes_parameter].
    apply elem_of_cons in Hcon as [-> | Hcon];
      [| apply list_elem_of_singleton in Hcon as ->];
      apply list_elem_of_singleton in Hv as ->; done.
  - unfold GeometricProblem.verify. rewrite two_fixes_constraints. simpl.
    unfold contains. rewrite HA', HB'. simpl.
    by rewrite (fix_A_on _ []).
Qed.



(** ** Lists and dicts *)

Lemma contains_true `{Countable K} {V} (d : gmap K V) (k : K) :
  contains d k = true <-> is_Some (d !! k).
Proof. unfold contains. apply bool_decide_eq_true. Qed.

Lemma contains_false `{Countable K} {V} (d : gmap K V) (k : K) :
  contains d k = false <-> d !! k = None.
Proof.
  unfold contains. rewrite bool_decide_eq_false. symmetry. apply eq_None_not_Some.
Qed.

Lemma mem_true `{EqDecision A} (x : A) (l : list A) :
  mem x l = true <-> x ∈ l.
Proof. unfold mem. apply bool_decide_eq_true. Qed.

Lemma in_filter {A} (f : A -> bool) (x : A) (l : list A) :
  x ∈ List.filter f l <-> x ∈ l /\ f x = true.
Proof. rewrite !list_elem_of_In. apply filter_In. Qed.

Lemma on_variable (g : ConstraintGraph.t) (v : variable) (c : Constraint) :
  c ∈ ConstraintGraph.get_constraints_on g v <->
  c ∈ ConstraintGraph.constraints g /\ v ∈ variables c.
Proof.
  unfold ConstraintGraph.get_constraints_on. rewrite in_filter.
  by rewrite mem_true.
Qed.

(** ** [GeometricProblem]: lookups of constraints *)

Section Lookups.
Import GeometricProblem.

Lemma at_most_one_inhabited (l : list Constraint) (c : Constraint) :
  c ∈ l ->
  (exists c', at_most_one l = Ok (Some c')) \/
  at_most_one l = Raise (StandardError "multiple constraints found").
Proof.
  intros Hc. destruct l as [| x [| y l]]; simpl.
  - inversion Hc.
  - left. by exists x.
  - by right.
Qed.

Lemma at_most_one_cases (l : list Constraint) :
  (l = [] /\ at_most_one l = Ok None) \/
  (exists x, x ∈ l /\
     ((exists c', at_most_one l = Ok (Some c')) \/
      at_most_one l = Raise (StandardError "multiple constraints found"))).
Proof.
  destruct l as [| x l]; [by left |]. right. exists x.
  split; [by left |]. by apply (at_most_one_inhabited _ x); left.
Qed.

Lemma at_most_one_empty (l : list Constraint) :
  (forall c, c ∉ l) -> at_most_one l = Ok None.
Proof.
  intros Hl. destruct l as [| x l]; [done |].
  destruct (Hl x). by left.
Qed.

(** The distances that [get_distance(a, b)] finds. *)
Lemma distance_candidate (p : t) (a b : variable) (c : Constraint) :
  c ∈ List.filter (fun c => bool_decide (class c = DistanceConstraint))
        (List.filter
           (fun c => mem c (ConstraintGraph.get_constraints_on (cg p) a)
                     && mem c (ConstraintGraph.get_constraints_on (cg p) b))
           (ConstraintGraph.get_constraints_on (cg p) a)) <->
  c ∈ ConstraintGraph.constraints (cg p) /\
  class c = DistanceConstraint /\ a ∈ variables c /\ b ∈ variables c.
Proof.
  rewrite !in_filter, andb_true_iff, !mem_true, !on_variable.
  rewrite bool_decide_eq_true. tauto.
Qed.

(** The angles that [get_angle(a, b, c)] finds. *)
Lemma angle_candidate (p : t) (a b c : variable) (x : Constraint) :
  x ∈ List.filter (fun x => bool_decide (variables x !! 1%nat = Some b))
        (List.filter (fun x => bool_decide (class x = AngleConstraint))
           (List.filter
              (fun x => mem x (ConstraintGraph.get_constraints_on (cg p) a)
                        && mem x (ConstraintGraph.get_constraints_on (cg p) b)
                        && mem x (ConstraintGraph.get_constraints_on (cg p) c))
              (ConstraintGraph.get_constraints_on (cg p) a))) <->
  x ∈ ConstraintGraph.constraints (cg p) /\
  class x = AngleConstraint /\ a ∈ variables x /\ c ∈ variables x /\
  variables x !! 1%nat = Some b.
Proof.
  rewrite !in_filter, !andb_true_iff, !mem_true, !on_variable.
  rewrite !bool_decide_eq_true. split; [tauto |].
  intros (Hin & Hk & Ha & Hc & Hb). repeat split; try done.
  by apply list_elem_of_lookup_2 in Hb.
Qed.

(** The fixes that [get_fix(v)] finds. *)
Lemma fix_candidate (p : t) (v : variable) (c : Constraint) :
  c ∈ List.filter (fun x => bool_decide (class x = FixConstraint))
        (ConstraintGraph.get_constraints_on (cg p) v) <->
  c ∈ ConstraintGraph.constraints (cg p) /\
  class c = FixConstraint /\ v ∈ variables c.
Proof.
  rewrite in_filter, on_variable, bool_decide_eq_true. tauto.
Qed.

Lemma check_variables_missing (p : t) (vars : list variable) (v : variable) :
  v ∈ vars -> prototype p !! v = None ->
  check_variables p vars
  = Raise (StandardError "point variable not in problem").
Proof.
  intros Hv Hnone. induction vars as [| x vars IH]; [inversion Hv |].
  simpl. destruct (contains (prototype p) x) eqn:Hx; [| done]. simpl.
  apply elem_of_cons in Hv as [-> | Hv]; [| by apply IH].
  apply contains_true in Hx. rewrite Hnone in Hx. by destruct Hx.
Qed.

Lemma check_variables_present (p : t) (vars : list variable) :
  (forall v, v ∈ vars -> is_Some (prototype p !! v)) ->
  check_variables p vars = Ok tt.
Proof.
  induction vars as [| x vars IH]; intros Hall; [done |]. simpl.
  rewrite (proj2 (contains_true _ _)) by (apply Hall; by left). simpl.
  apply IH. intros v Hv. apply Hall. by right.
Qed.

Lemma check_variables_cases (p : t) (vars : list variable) :
  check_variables p vars = Ok tt \/
  check_variables p vars
  = Raise (StandardError "point variable not in problem").
Proof.
  induction vars as [| x vars IH]; [by left |]. simpl.
  destruct (contains (prototype p) x); simpl; [done | by right].
Qed.
End Lookups.

(** ** Authoring errors *)

Section Authoring.
Import GeometricProblem.

Lemma add_distance_duplicate (w : World) (con old : Constraint)
    (a b : variable) :
  class con = DistanceConstraint -> variables con = [a; b] ->
  old ∈ ConstraintGraph.constraints (cg (problem w)) ->
  class old = DistanceConstraint ->
  a ∈ variables old -> b ∈ variables old ->
  exists e, add_constraint con w = (w, Raise e).
Proof.
  intros Hk Hv Hin Hko Ha Hb. unfold add_constraint. run. rewrite Hk, Hv.
  destruct (check_variables_cases (problem w) [a; b]) as [-> | ->];
    simpl; [| eauto].
  unfold get_distance.
  edestruct at_most_one_inhabited as [[c' ->] | ->];
    [apply distance_candidate; eauto | |]; simpl; eauto.
Qed.

Lemma add_angle_duplicate (w : World) (con old : Constraint)
    (a b c : variable) :
  class con = AngleConstraint -> variables con = [a; b; c] ->
  old ∈ ConstraintGraph.constraints (cg (problem w)) ->
  class old = AngleConstraint ->
  a ∈ variables old -> c ∈ variables old ->
  variables old !! 1%nat = Some b ->
  exists e, add_constraint con w = (w, Raise e).
Proof.
  intros Hk Hv Hin Hko Ha Hc Hb. unfold add_constraint. run. rewrite Hk, Hv.
  destruct (check_variables_cases (problem w) [a; b; c]) as [-> | ->];
    simpl; [| eauto].
  unfold get_angle.
  edestruct at_most_one_inhabited as [[c' ->] | ->];
    [apply angle_candidate; eauto 6 | |]; simpl; eauto.
Qed.

Lemma add_fix_duplicate (w : World) (con old : Constraint) (v : variable) :
  class con = FixConstraint -> variables con = [v] ->
  old ∈ ConstraintGraph.constraints (cg (problem w)) ->
  class old = FixConstraint -> v ∈ variables old ->
  exists e, add_constraint con w = (w, Raise e).
Proof.
  intros Hk Hv Hin Hko Ha. unfold add_constraint. run. rewrite Hk, Hv.
  destruct (check_variables_cases (problem w) [v]) as [-> | ->];
    simpl; [| eauto].
  unfold get_fix.
  edestruct at_most_one_inhabited as [[c' ->] | ->];
    [apply fix_candidate; eauto | |]; simpl; eauto.
Qed.

Lemma add_missing_variable (w : World) (con : Constraint) (v : variable) :
  v ∈ variables con -> prototype (problem w) !! v = None ->
  exists e, add_constraint con w = (w, Raise e).
Proof.
  intros Hv Hnone. unfold add_constraint. run.
  destruct (class con); try rewrite (check_variables_missing _ _ v Hv Hnone);
    simpl; eauto.
Qed.
End Authoring.

(** C8. Every invalid authoring call ([add_point] of a variable that
    exists, [set_point], [get_point], [rem_point] of an unknown variable,
    [add_constraint] with a missing variable, a duplicate distance, angle or
    fix, or an unsupported class, [rem_constraint] of a constraint that is
    not in the problem) raises, and leaves the prototype map, the
    constraint graph and everything else of the problem as they were. *)
Theorem invalid_call_raises (w : GeometricProblem.World)
    (c : GeometricProblem.call) :
  GeometricProblem.invalid (GeometricProblem.problem w) c ->
  exists e, GeometricProblem.exec c w = (w, Raise e).
Proof.
  intros Hinv.
  destruct Hinv as [v pos Hv | v pos Hv | v Hv | v Hv | con v Hv Hnone
                    | con a b old Hk Hvs Hin Hko Ha Hb
                    | con a b c' old Hk Hvs Hin Hko Ha Hc Hb
                    | con v old Hk Hvs Hin Hko Hv | con Hk | con Hin]; simpl.
  - unfold GeometricProblem.add_point. run.
    rewrite (proj2 (contains_true _ _) Hv). simpl. eauto.
  - unfold GeometricProblem.set_point. run.
    rewrite (proj2 (contains_false _ _) Hv). eauto.
  - unfold GeometricProblem.get_point. run.
    rewrite (proj2 (contains_false _ _) Hv). eauto.
  - unfold GeometricProblem.rem_point. run.
    rewrite (proj2 (contains_false _ _) Hv). eauto.
  - by apply (add_missing_variable w con v).
  - by apply (add_distance_duplicate w con old a b).
  - by apply (add_angle_duplicate w con old a b c').
  - by apply (add_fix_duplicate w con old v).
  - unfold GeometricProblem.add_constraint. run. rewrite Hk. eauto.
  - unfold GeometricProblem.rem_constraint. run.
    destruct (mem con _) eqn:Hm; [| eauto].
    apply mem_true in Hm. by destruct Hin.
Qed.

(** The hypothesis of [invalid_call_raises] holds for [get_point("A")] on a
    new problem. *)
Lemma invalid_call_raises_witness :
  exists e,
    GeometricProblem.exec (GeometricProblem.Get_point "A")
      (GeometricProblem.new_world 2)
    = (GeometricProblem.new_world 2, Raise e).
Proof.
  apply (invalid_call_raises (GeometricProblem.new_world 2)
           (GeometricProblem.Get_point "A")).
  apply GeometricProblem.inv_get_point. reflexivity.
Defined.

(** ** Duplicate angles *)

(** C7, as stated, fails: with the angle (A, B, C) as the only constraint,
    an angle on (C, B, A), a triple on which no angle exists yet, is
    rejected as a duplicate. *)
Lemma reversed_angle_rejected :
  let w := Scenario.one_angle_world in
  ConstraintGraph.constraints (GeometricProblem.cg (GeometricProblem.problem w))
  = [Scenario.angle_ABC] /\
  variables Scenario.angle_ABC = ["A"; "B"; "C"] /\
  variables Scenario.angle_CBA = ["C"; "B"; "A"] /\
  GeometricProblem.add_constraint Scenario.angle_CBA w
  = (w, Raise (StandardError "angle already in problem")).
Proof. vm_compute. repeat split; reflexivity. Qed.

(** C7, amended. [add_constraint] of an angle (a, b, c) whose variables
    are in the problem fails with a duplicate error ("angle already in
    problem", or "multiple constraints found" when several angles match),
    leaving the problem as it was, if and only if the problem has an angle
    with the apex b whose variables include a and c; otherwise the angle is
    accepted. In particular, when the angle (c, b, a) is the only
    constraint, the angle (a, b, c) is rejected with "angle already in
    problem". *)
Theorem add_angle_spec (w : GeometricProblem.World) (con : Constraint)
    (a b c : variable) :
  class con = AngleConstraint ->
  variables con = [a; b; c] ->
  (forall v, v ∈ [a; b; c] ->
     is_Some (GeometricProblem.prototype (GeometricProblem.problem w) !! v)) ->
  let cons :=
    ConstraintGraph.constraints (GeometricProblem.cg (GeometricProblem.problem w)) in
  let duplicate :=
    exists old, old ∈ cons /\ class old = AngleConstraint /\
      a ∈ variables old /\ c ∈ variables old /\
      variables old !! 1%nat = Some b in
  let rejected :=
    GeometricProblem.add_constraint con w
    = (w, Raise (StandardError "angle already in problem")) \/
    GeometricProblem.add_constraint con w
    = (w, Raise (StandardError "multiple constraints found")) in
  (duplicate <-> rejected) /\
  (~ duplicate ->
   exists w', GeometricProblem.add_constraint con w = (w', Ok tt)) /\
  (forall old, cons = [old] -> class old = AngleConstraint ->
     variables old = [c; b; a] ->
     GeometricProblem.add_constraint con w
     = (w, Raise (StandardError "angle already in problem"))).
Proof.
  intros Hk Hv Hvars cons duplicate rejected.
  assert (Hrun : forall r,
    GeometricProblem.get_angle (GeometricProblem.problem w) a b c = r ->
    GeometricProblem.add_constraint con w
    = match r with
      | Ok (Some _) => (w, Raise (StandardError "angle already in problem"))
      | Ok None =>
          (GeometricProblem.add_listener con the_problem ;;
           GeometricProblem.call_cg (ConstraintGraph.add_constraint con)) w
      | Raise e => (w, Raise e)
      end).
  { intros r <-. unfold GeometricProblem.add_constraint. run. rewrite Hk, Hv.
    rewrite check_variables_present by done. simpl.
    by destruct (GeometricProblem.get_angle _ a b c) as [[x |] | e]. }
  assert (Hcases : (~ duplicate /\
                    exists w', GeometricProblem.add_constraint con w = (w', Ok tt))
                   \/ (duplicate /\ rejected)).
  { unfold GeometricProblem.get_angle in Hrun.
    edestruct at_most_one_cases as [[Hnil Hnone] | (x & Hx & Hres)].
    - left. split.
      + intros (old & Hold). apply angle_candidate in Hold.
        rewrite Hnil in Hold. inversion Hold.
      + rewrite (Hrun _ Hnone).
        unfold GeometricProblem.add_listener, GeometricProblem.set_state,
          GeometricProblem.call_cg. run. eauto.
    - right. split.
      + exists x. by apply angle_candidate in Hx.
      + unfold rejected. destruct Hres as [[c' Hc'] | Hm].
        * left. by rewrite (Hrun _ Hc').
        * right. by rewrite (Hrun _ Hm). }
  split; [| split].
  - split.
    + intros Hd. destruct Hcases as [[Hnd _] | [_ Hr]]; [by destruct Hnd | done].
    + intros Hr. destruct Hcases as [[_ [w' Hw']] | [Hd _]]; [| done].
      unfold rejected in Hr. rewrite Hw' in Hr. by destruct Hr.
  - intros Hnd. destruct Hcases as [[_ Hacc] | [Hd _]]; [done | by destruct Hnd].
  - intros old Hcons Hko Hvo.
    rewrite (Hrun (Ok (Some old))); [done |].
    unfold GeometricProblem.get_angle, ConstraintGraph.get_constraints_on.
    fold cons. rewrite Hcons. simpl. unfold variables in Hvo. rewrite Hvo.
    assert (Ha : mem a [c; b; a] = true) by (apply mem_true; repeat constructor).
    assert (Hb : mem b [c; b; a] = true) by (apply mem_true; repeat constructor).
    assert (Hc : mem c [c; b; a] = true) by (apply mem_true; repeat constructor).
    rewrite Ha, Hb, Hc. simpl.
    rewrite !(proj2 (mem_true _ _)) by repeat constructor. simpl.
    rewrite Hko. simpl. unfold variables. rewrite Hvo. simpl.
    by rewrite bool_decide_eq_true_2.
Qed.

(** The hypotheses of [add_angle_spec] hold for the angle (C, B, A) in the
    problem whose only constraint is the angle (A, B, C). *)
Lemma add_angle_spec_witness :
  GeometricProblem.add_constraint Scenario.angle_CBA Scenario.one_angle_world
  = (Scenario.one_angle_world,
     Raise (StandardError "angle already in problem")).
Proof.
  refine (proj2 (proj2 (add_angle_spec Scenario.one_angle_world
                          Scenario.angle_CBA "C" "B" "A" eq_refl eq_refl _))
            Scenario.angle_ABC _ eq_refl eq_refl).
  - intros v Hv.
    apply elem_of_cons in Hv as [-> | Hv]; [vm_compute; eauto |].
    apply elem_of_cons in Hv as [-> | Hv]; [vm_compute; eauto |].
    apply list_elem_of_singleton in Hv as ->. vm_compute; eauto.
  - vm_compute. reflexivity.
Defined.

(** ** Parameter changes *)

Section Parameters.
Import GeometricProblem.


(** [add_constraint] of a fix leaves the listeners of every constraint as
    they were: the problem does not subscribe. *)
Lemma add_fix_does_not_subscribe (w w' : World) (con : Constraint)
    (r : result unit) :
  class con = FixConstraint ->
  add_constraint con w = (w', r) ->
  objects w' = objects w.
Proof.
  intros Hk. unfold add_constraint. run. rewrite Hk.
  destruct (check_variables _ _); simpl; [| by intros [= <- _]].
  destruct (index (variables con) 0); simpl; [| by intros [= <- _]].
  destruct (get_fix _ _) as [d |]; simpl; [| by intros [= <- _]].
  destruct (bool_decide (is_Some d)); [by intros [= <- _] |].
  unfold call_cg. run. by intros [= <- _].
Qed.

Lemma deliver_all (con : Constraint) (value : pyval) (ls : list listener)
    (w : World) :
  is_ParametricConstraint (class con) = true ->
  let out := ("set_parameter", D_pair (D_constraint con) (D_value value)) in
  exists w',
    for_each ls (deliver con ("set_parameter", D_value value)) w = (w', Ok tt) /\
    (forall m, m ∈ sent (problem w) -> m ∈ sent (problem w')) /\
    (the_problem ∈ ls -> out ∈ sent (problem w')) /\
    (the_problem ∉ ls -> w' = w).
Proof.
  intros Hp out. revert w. induction ls as [| l ls IH]; intros w; simpl.
  - exists w. split; [done |]. split; [done |]. split; [| done].
    intros H. inversion H.
  - run. destruct l as [| id]; simpl.
    + unfold receive_notify. rewrite Hp. simpl. unfold send_notify. run.
      match goal with |- context [for_each ls _ ?w0] =>
        destruct (IH w0) as (w' & -> & Hmono & _ & _) end.
      exists w'. split; [done |]. split; [| split].
      * intros m Hm. apply Hmono. simpl. apply elem_of_app. by left.
      * intros _. apply Hmono. simpl. apply elem_of_app. right. by left.
      * intros Hn. destruct Hn. by left.
    + destruct (IH w) as (w' & -> & Hmono & Hin & Hout).
      exists w'. split; [done |]. split; [done |]. split.
      * intros H. apply Hin. by apply elem_of_cons in H as [? | ?].
      * intros H. apply Hout. intros Hls. apply H. by right.
Qed.


(** [set_parameter] on a constraint the problem is not subscribed to
    leaves the problem as it was: nothing is sent. *)
Lemma set_parameter_silent (w : World) (con : Constraint) (value : pyval) :
  is_ParametricConstraint (class con) = true ->
  the_problem ∉ listeners (state_of (objects w) con) ->
  exists w',
    set_parameter con value w = (w', Ok tt) /\
    problem w' = problem w.
Proof.
  intros Hp Hl. unfold set_parameter, set_state, notifier_send_notify. run.
  unfold state_of at 1. rewrite lookup_insert_eq. simpl.
  match goal with |- context [for_each ?ls _ ?w0] =>
    destruct (deliver_all con value ls w0 Hp) as (w' & -> & _ & _ & Hout) end.
  exists w'. split; [done |]. by rewrite (Hout Hl).
Qed.
End Parameters.

(** C9. The claim fails for [FixConstraint]: [add_constraint] accepts
    [FixConstraint("A", (0, 0))] without subscribing the problem to it, and
    the later [set_parameter((1, 1))] changes the parameter while the
    problem sends nothing. The same steps with a [DistanceConstraint] make
    the problem send [("set_parameter", (constraint, 2))]. *)
Theorem fix_parameter_not_reemitted :
  (let '(w, r) := Scenario.fix_then_set (GeometricProblem.new_world 2) in
   let f := {| cid := 0; class := FixConstraint; _variables := ["A"] |} in
   r = Ok f /\
   ConstraintGraph.constraints (GeometricProblem.cg (GeometricProblem.problem w))
   = [f] /\
   get_parameter (GeometricProblem.objects w) f = VVector [1; 1]%R /\
   listeners (state_of (GeometricProblem.objects w) f) = [] /\
   GeometricProblem.sent (GeometricProblem.problem w) = []) /\
  (let '(w, r) := Scenario.distance_then_set (GeometricProblem.new_world 2) in
   r = Ok Scenario.distance_AB /\
   listeners (state_of (GeometricProblem.objects w) Scenario.distance_AB)
   = [the_problem] /\
   GeometricProblem.sent (GeometricProblem.problem w)
   = [("set_parameter",
       D_pair (D_constraint Scenario.distance_AB) (D_value (VFloat 2)))]).
Proof. vm_compute. repeat split; reflexivity. Qed.

(** ** [FixConstraint.satisfied] *)

(** C6. [FixConstraint.satisfied] never returns [True]. In 2D, with B fixed
    at the origin and mapped to the origin, where the claim has [True], it
    raises [AttributeError]; in 3D, with P fixed at the origin and mapped to
    (0, 0, 5), where the claim has [False], it raises as well. *)
Theorem FixConstraint_satisfied_raises :
  (forall (h : store) (con : Constraint) (m : mapping),
     FixConstraint_satisfied h con m <> Ok true) /\
  FixConstraint_satisfied (GeometricProblem.objects Scenario.two_fixes_world)
    Scenario.fix_B {[ "B" := [0; 0]%R ]}
  = Raise (AttributeError "value") /\
  FixConstraint_satisfied (GeometricProblem.objects Scenario.fix_3d_world)
    Scenario.fix_P {[ "P" := [0; 0; 5]%R ]}
  = Raise (AttributeError "value").
Proof.
  split; [exact FixConstraint_satisfied_not_true |]. split.
  - rewrite (FixConstraint_satisfied_point _ _ _ "B" [] 0 0 0 [] [0%R]);
      [by rewrite tol_eq_refl | done | done |].
    apply two_fixes_parameter. right. by left.
  - rewrite (FixConstraint_satisfied_point _ _ _ "P" [] 0 0 0 [5%R] [0; 0]%R);
      [by rewrite tol_eq_refl | done | done |].
    vm_compute. reflexivity.
Qed.

(** ** The identity map of the solver *)

(** C2. After [add_point("A", (0, 0))] and [rem_point("A")] on an empty
    problem, the solver has handled [add_variable] and [rem_variable]
    without an error, and its map holds one entry: from the rigid of A
    back to A, with no entry from A to the rigid. *)
Theorem reverse_entry_dangles :
  List.map snd (Scenario.events Scenario.empty_world Scenario.with_A
                ++ Scenario.events Scenario.with_A Scenario.without_A)
  = [("add_variable", D_variable "A"); ("rem_variable", D_variable "A")] /\
  Scenario.add_then_remove.2 = Ok tt /\
  GeometricSolver._map Scenario.add_then_remove.1 !! O_cluster (Rigid 0 ["A"])
  = Some (O_variable "A") /\
  GeometricSolver._map Scenario.add_then_remove.1 !! O_variable "A" = None /\
  size (GeometricSolver._map Scenario.add_then_remove.1) = 1%nat.
Proof.
  split; [vm_compute; reflexivity |].
  split; [vm_compute; reflexivity |].
  split; [vm_compute; reflexivity |].
  split; vm_compute; reflexivity.
Qed.

(** ** Fix constraints in the solver *)

Section FixAggregation.
Import GeometricSolver.

(** Whatever the state, [_add_constraint] of a fix stops at [self.get]:
    the fixed variable is not recorded and no fixcluster is built, added
    or made the root. *)
Lemma add_fix_raises (w : GeometricProblem.World) (s : t)
    (con : Constraint) :
  class con = FixConstraint ->
  _add_constraint w con s = (after_remove s, Raise (AttributeError "get")).
Proof.
  intros Hk. unfold _add_constraint, after_remove. rewrite Hk. run.
  destruct (fixcluster s) eqn:Hfc; [| done].
  unfold call_dr. run. by rewrite Hfc.
Qed.

(** The same for [_rem_constraint]. *)
Lemma rem_fix_raises (w : GeometricProblem.World) (s : t)
    (con : Constraint) :
  class con = FixConstraint ->
  _rem_constraint w con s = (after_remove s, Raise (AttributeError "get")).
Proof.
  intros Hk. unfold _rem_constraint, after_remove. rewrite Hk. run.
  destruct (fixcluster s) eqn:Hfc; [| done].
  unfold call_dr. run. by rewrite Hfc.
Qed.

(** Past [self.get]: once there are as many fixed variables as the
    dimension, the branch stops at the name [Cluster], before a
    fixcluster is built, added or made the root. *)
Lemma append_fixvar_raises (w : GeometricProblem.World) (s : t) (x : pyobj) :
  (GeometricProblem.dimension (GeometricProblem.problem w)
   <= Z.of_nat (length (fixvars s)) + 1)%Z ->
  append_fixvar w x s
  = ({| dimension := dimension s; _map := _map s;
        fixvars := fixvars s ++ [x]; fixcluster := fixcluster s;
        dr := dr s; next_clid := next_clid s |},
     Raise (NameError "Cluster")).
Proof.
  intros Hdim. unfold append_fixvar, set_fixvars. run.
  rewrite bool_decide_eq_true_2; [done |].
  rewrite length_app. simpl. lia.
Qed.

(** [_update_fix] with a fixcluster stops at the name [fixcluster]. *)
Lemma update_fix_raises (w : GeometricProblem.World) (s : t) :
  is_Some (fixcluster s) ->
  _update_fix w s = (s, Raise (NameError "fixcluster")).
Proof. intros [c Hc]. unfold _update_fix. run. by rewrite Hc. Qed.
End FixAggregation.

(** C3. On a 2D problem with the points A and B, the solver does not get
    to aggregate fixes: handling [add_constraint] of the fix of A, and then
    of the fix of B, raises [AttributeError] at [self.get] and leaves the
    solver as it was, with no fixed variable recorded, no fixcluster and no
    call of the cluster solver; and a solver cannot be created on the
    problem that has the two fixes. *)
Theorem fixcluster_never_built :
  (forall w : GeometricProblem.World,
     GeometricSolver.receive_notify w from_cg
       ("add_constraint", D_constraint Scenario.fix_A) Scenario.solver_A_B
     = (Scenario.solver_A_B, Raise (AttributeError "get"))) /\
  (forall w : GeometricProblem.World,
     GeometricSolver.receive_notify w from_cg
       ("add_constraint", D_constraint Scenario.fix_B) Scenario.solver_A_B
     = (Scenario.solver_A_B, Raise (AttributeError "get"))) /\
  GeometricSolver.dimension Scenario.solver_A_B = 2%Z /\
  GeometricSolver.fixvars Scenario.solver_A_B = [] /\
  GeometricSolver.fixcluster Scenario.solver_A_B = None /\
  (GeometricSolver.new Scenario.two_fixes_world).2
  = Raise (AttributeError "get").
Proof.
  assert (Hnone : GeometricSolver.fixcluster Scenario.solver_A_B = None)
    by (vm_compute; reflexivity).
  assert (Hsame : GeometricSolver.after_remove Scenario.solver_A_B
                  = Scenario.solver_A_B)
    by (unfold GeometricSolver.after_remove; by rewrite Hnone).
  split; [| split]; [| | repeat split; vm_compute; reflexivity].
  - intros w. simpl. rewrite add_fix_raises by done. by rewrite Hsame.
  - intros w. simpl. rewrite add_fix_raises by done. by rewrite Hsame.
Qed.

(** ** [get_result] *)

Section GetResult.
Import GeometricSolver.

(** The cluster that the branch for no rigid at the top level builds. *)
Lemma top_level_result_no_rigid (d : ClusterSolver.t) (fr : frame) :
  List.filter is_Rigid (ClusterSolver.top_level d) = [] ->
  returned (top_level_result d fr)
  = Some {| GeometricCluster.variables := [];
            GeometricCluster.solutions := [];
            GeometricCluster.subs := [];
            GeometricCluster.flag := GeometricCluster.OK;
            GeometricCluster.flags := Some GeometricCluster.UNSOLVED |}.
Proof.
  intros Hnone. unfold top_level_result. rewrite Hnone.
  unfold new_cluster, update. run.
  rewrite list_lookup_alter_eq, lookup_app_r by done.
  by rewrite Nat.sub_diag.
Qed.

(** Whenever [get_result] returns with no rigid at the top level, the
    flag of the cluster it returns is [OK]; [UNSOLVED] is in the
    attribute [flags]. *)
Lemma get_result_no_rigid (d : ClusterSolver.t) (c : GeometricCluster.t) :
  List.filter is_Rigid (ClusterSolver.top_level d) = [] ->
  returned (get_result d) = Some c ->
  GeometricCluster.flag c = GeometricCluster.OK /\
  GeometricCluster.flags c = Some GeometricCluster.UNSOLVED.
Proof.
  intros Hnone. unfold get_result. unfold mbind at 1. unfold M_bind.
  destruct (for_each (ClusterSolver.rigids d) (map_rigid d) _) as [fr1 [[] | e]];
    [| done].
  unfold mbind at 1. unfold M_bind.
  destruct (for_each (ClusterSolver.methods d) map_method fr1)
    as [fr2 [[] | e]]; [| done].
  unfold mbind at 1. unfold M_bind.
  destruct (for_each (ClusterSolver.methods d) map_selection fr2)
    as [fr3 [[] | e]]; [| done].
  rewrite top_level_result_no_rigid by done. by intros [= <-].
Qed.
End GetResult.

(** C5. On the empty problem (the cluster solver holds no rigid, no method
    and nothing at the top level) [get_result] returns a cluster with empty
    variables, solutions and subs whose flag is [OK] ("well constrained"),
    not [UNSOLVED]: [UNSOLVED] is assigned to an attribute [flags]. *)
Theorem empty_result_flag :
  GeometricSolver.returned (GeometricSolver.get_result ClusterSolver.empty)
  = Some {| GeometricCluster.variables := [];
            GeometricCluster.solutions := [];
            GeometricCluster.subs := [];
            GeometricCluster.flag := "well constrained";
            GeometricCluster.flags := Some "unsolved" |} /\
  GeometricCluster.OK <> GeometricCluster.UNSOLVED.
Proof. split; [vm_compute; reflexivity | discriminate]. Qed.

(** ** The reference configurations *)

Section Numerics.
Local Open Scope R_scope.

Lemma tol_eq_one_zero : tol_eq 1 0 = false.
Proof.
  apply tol_eq_far. replace (1 - 0) with 1 by lra. rewrite Rabs_R1. lra.
Qed.

Lemma norm_unit_x (pad : vector) :
  pad = [] \/ pad = [0] -> norm (vsub ([1; 0] ++ pad) ([0; 0] ++ pad)) = 1.
Proof.
  intros [-> | ->]; unfold norm; simpl.
  - replace ((1 - 0) * (1 - 0) + ((0 - 0) * (0 - 0) + 0)) with 1 by lra.
    apply sqrt_1.
  - replace ((1 - 0) * (1 - 0) + ((0 - 0) * (0 - 0) + ((0 - 0) * (0 - 0) + 0)))
      with 1 by lra.
    apply sqrt_1.
Qed.

Lemma norm_unit_angle (x : R) (pad : vector) :
  pad = [] \/ pad = [0] ->
  norm (vsub ([cos x; sin x] ++ pad) ([0; 0] ++ pad)) = 1.
Proof.
  pose proof (sin2_cos2 x) as H. unfold Rsqr in H.
  intros [-> | ->]; unfold norm; simpl.
  - replace ((cos x - 0) * (cos x - 0) + ((sin x - 0) * (sin x - 0) + 0))
      with 1 by lra.
    apply sqrt_1.
  - replace ((cos x - 0) * (cos x - 0)
             + ((sin x - 0) * (sin x - 0) + ((0 - 0) * (0 - 0) + 0)))
      with 1 by lra.
    apply sqrt_1.
Qed.

Lemma dot_unit_angle (x : R) (pad : vector) :
  pad = [] \/ pad = [0] ->
  dot (vsub ([1; 0] ++ pad) ([0; 0] ++ pad))
      (vsub ([cos x; sin x] ++ pad) ([0; 0] ++ pad)) = cos x.
Proof. intros [-> | ->]; simpl; lra. Qed.

(** The distance from the origin to (d, 0[, 0]) is |d|. *)
Lemma distance_on_axis (d : R) (pad : vector) :
  pad = [] \/ pad = [0] ->
  distance_2p (0 :: 0 :: pad) (d :: 0 :: pad) = Rabs d.
Proof.
  intros Hpad. unfold distance_2p, norm.
  rewrite <- sqrt_Rsqr_abs. f_equal. unfold Rsqr.
  destruct Hpad as [-> | ->]; simpl; lra.
Qed.

(** The principal value of the angle whose cosine is [cos x]. *)
Lemma acos_cos_abs (x : R) : - PI <= x <= PI -> acos (cos x) = Rabs x.
Proof.
  intros [Hlo Hhi]. destruct (Rle_dec 0 x) as [Hpos | Hneg].
  - rewrite Rabs_pos_eq by done. apply acos_cos. lra.
  - rewrite Rabs_left by lra. rewrite <- cos_neg. apply acos_cos. lra.
Qed.

(** The angle at the origin from (1, 0) to (cos x, sin x), in 2D: x
    itself when x is in (-pi, pi]. *)
Lemma angle_2d (x : R) :
  - PI < x <= PI ->
  angle_3p [1; 0] [0; 0] [cos x; sin x] = Some x.
Proof.
  intros [Hlo Hhi]. unfold angle_3p.
  change [1; 0] with ([1; 0] ++ []).
  change [0; 0] with ([0; 0] ++ []).
  change [cos x; sin x] with ([cos x; sin x] ++ []).
  rewrite (norm_unit_x []), (norm_unit_angle x []) by auto.
  rewrite tol_eq_one_zero.
  rewrite (dot_unit_angle x [] (or_introl eq_refl)). simpl.
  replace (cos x / (1 * 1)) with (cos x) by (field; lra).
  replace ((1 - 0) * (sin x - 0) - (0 - 0) * (cos x - 0)) with (sin x) by lra.
  rewrite acos_cos_abs by lra.
  destruct (Rlt_dec (sin x) 0) as [Hneg | Hpos].
  - destruct (Rle_dec 0 x) as [Hx | Hx].
    + pose proof (sin_ge_0 x Hx Hhi). lra.
    + rewrite Rabs_left by lra. f_equal. lra.
  - destruct (Rle_dec 0 x) as [Hx | Hx].
    + by rewrite Rabs_pos_eq.
    + assert (sin x < 0) by (apply sin_lt_0_var; lra). lra.
Qed.

(** The same in 3D, where the angle is unsigned: |x| when x is in
    [-pi, pi]. *)
Lemma angle_3d (x : R) :
  - PI <= x <= PI ->
  angle_3p [1; 0; 0] [0; 0; 0] [cos x; sin x; 0] = Some (Rabs x).
Proof.
  intros Hx. unfold angle_3p.
  change [1; 0; 0] with ([1; 0] ++ [0]).
  change [0; 0; 0] with ([0; 0] ++ [0]).
  change [cos x; sin x; 0] with ([cos x; sin x] ++ [0]).
  rewrite (norm_unit_x [0]), (norm_unit_angle x [0]) by auto.
  rewrite tol_eq_one_zero.
  rewrite (dot_unit_angle x [0] (or_intror eq_refl)). simpl.
  replace (cos x / (1 * 1)) with (cos x) by (field; lra).
  by rewrite acos_cos_abs.
Qed.
End Numerics.

Section ReferenceConfigurations.
Import GeometricSolver.
Local Open Scope R_scope.

Lemma pad_cases (d : Z) :
  (if bool_decide (d = 3%Z) then [0] else []) = ([] : vector) \/
  (if bool_decide (d = 3%Z) then [0] else []) = [0].
Proof. case_bool_decide; auto. Qed.

(** [_update_constraint] on a distance between two distinct variables:
    it pushes the reference configuration, and the assertion compares
    |d| with d. *)
Lemma update_distance_outcome (w : GeometricProblem.World) (s : t)
    (con : Constraint) (a b : variable) (cluster : pyobj) (d : R) :
  class con = DistanceConstraint -> variables con = [a; b] -> a <> b ->
  _map s !! O_constraint con = Some cluster ->
  get_parameter (GeometricProblem.objects w) con = VFloat d ->
  DistanceConstraint_satisfied (GeometricProblem.objects w) con
    (reference (dimension s) con d) = Ok (tol_eq (Rabs d) d) /\
  _update_constraint w con s
  = (pushed s cluster (reference (dimension s) con d),
     if tol_eq (Rabs d) d then Ok tt else Raise AssertionError).
Proof.
  intros Hk Hv Hab Hm Hp.
  assert (Hsat :
    DistanceConstraint_satisfied (GeometricProblem.objects w) con
      (reference (dimension s) con d) = Ok (tol_eq (Rabs d) d)).
  { unfold DistanceConstraint_satisfied, reference, getitem.
    rewrite Hk, Hv. unfold variables in Hv. rewrite Hv. simpl.
    rewrite (lookup_insert_ne _ b a), !lookup_insert_eq by congruence.
    simpl. rewrite Hp. simpl.
    by rewrite (distance_on_axis d _ (pad_cases _)). }
  split; [exact Hsat |].
  unfold _update_constraint. rewrite Hk. run. unfold getitem.
  rewrite Hm. simpl. rewrite Hv. simpl. rewrite Hp. simpl.
  unfold reference in Hsat. rewrite Hk, Hv in Hsat. simpl in Hsat.
  unfold call_dr. run. unfold Configuration.new. simpl.
  rewrite Hsat. unfold pushed, reference. rewrite Hk, Hv. simpl.
  by destruct (tol_eq (Rabs d) d).
Qed.

(** The reference configuration of an angle in the principal range
    satisfies the angle. *)
Lemma reference_angle_satisfied (h : store) (dim : Z) (con : Constraint)
    (a b c : variable) (x : R) :
  class con = AngleConstraint -> variables con = [a; b; c] ->
  a <> b -> a <> c -> b <> c ->
  get_parameter h con = VFloat x ->
  (if bool_decide (dim = 3%Z) then - PI <= x <= PI else - PI < x <= PI) ->
  AngleConstraint_satisfied h con (reference dim con x) = Ok true.
Proof.
  intros Hk Hv Hab Hac Hbc Hp Hx.
  unfold AngleConstraint_satisfied, reference, getitem.
  rewrite Hk, Hv. unfold variables in Hv. rewrite Hv. simpl.
  rewrite (lookup_insert_ne _ c a), (lookup_insert_ne _ b a),
    (lookup_insert_ne _ c b), !lookup_insert_eq by congruence.
  simpl. rewrite Hp.
  case_bool_decide; simpl.
  - rewrite angle_3d by done. simpl. by rewrite tol_eq_refl.
  - rewrite angle_2d by done. simpl. by rewrite tol_eq_refl.
Qed.

(** [_update_constraint] on an angle pushes the reference configuration
    and then asserts that it satisfies the angle. *)
Lemma update_angle_outcome (w : GeometricProblem.World) (s : t)
    (con : Constraint) (a b c : variable) (cluster : pyobj) (x : R)
    (ok : bool) :
  class con = AngleConstraint -> variables con = [a; b; c] ->
  _map s !! O_constraint con = Some cluster ->
  get_parameter (GeometricProblem.objects w) con = VFloat x ->
  AngleConstraint_satisfied (GeometricProblem.objects w) con
    (reference (dimension s) con x) = Ok ok ->
  _update_constraint w con s
  = (pushed s cluster (reference (dimension s) con x),
     if ok then Ok tt else Raise AssertionError).
Proof.
  intros Hk Hv Hm Hp Hsat.
  unfold _update_constraint. rewrite Hk. run. unfold getitem.
  rewrite Hm. simpl. rewrite Hv. simpl. rewrite Hp. simpl.
  unfold reference in Hsat. rewrite Hk, Hv in Hsat. simpl in Hsat.
  unfold call_dr. run. unfold Configuration.new. simpl.
  rewrite Hsat. unfold pushed, reference. rewrite Hk, Hv. simpl.
  by destruct ok.
Qed.
End ReferenceConfigurations.

(** C4. For [DistanceConstraint("A", "B", -1)] the solver pushes the
    configuration of the claim, A at the origin and B at (-1, 0); the
    distance between the two is 1 and not -1, the pushed configuration
    does not satisfy the constraint, and the assertion after the synthesis
    fails, the configuration having been pushed. *)
Theorem negative_distance_fails_assertion :
  let w := Scenario.with_negative_distance in
  let con := Scenario.negative_distance in
  let s := GeometricSolver.mapped Scenario.solver_A_B con (Rigid 2 ["A"; "B"]) in
  ConstraintGraph.constraints (GeometricProblem.cg (GeometricProblem.problem w))
  = [con] /\
  get_parameter (GeometricProblem.objects w) con = VFloat (-1) /\
  GeometricSolver.reference 2 con (-1)
  = <["B" := [-1; 0]%R]> (<["A" := [0; 0]%R]> ∅) /\
  DistanceConstraint_satisfied (GeometricProblem.objects w) con
    (GeometricSolver.reference 2 con (-1)) = Ok false /\
  GeometricSolver.receive_notify w from_cg ("add_constraint", D_constraint con)
    Scenario.solver_A_B
  = (GeometricSolver.pushed s (O_cluster (Rigid 2 ["A"; "B"]))
       (GeometricSolver.reference 2 con (-1)),
     Raise AssertionError).
Proof.
  intros w con s.
  assert (Hp : get_parameter (GeometricProblem.objects w) con = VFloat (-1))
    by (vm_compute; reflexivity).
  assert (Hfar : tol_eq (Rabs (-1)) (-1) = false).
  { apply tol_eq_far. rewrite (Rabs_left (-1)) by lra.
    replace (- -1 - -1)%R with 2%R by lra. rewrite Rabs_pos_eq; lra. }
  assert (Hdim : GeometricSolver.dimension s = 2%Z) by (vm_compute; reflexivity).
  assert (Hid : GeometricSolver.next_clid Scenario.solver_A_B = 2%nat)
    by (vm_compute; reflexivity).
  destruct (update_distance_outcome w s con "A" "B"
              (O_cluster (Rigid 2 ["A"; "B"])) (-1)) as [Hsat Hrun];
    [done | done | done | | done |].
  { unfold s, GeometricSolver.mapped. simpl.
    rewrite lookup_insert_ne by done. apply lookup_insert_eq. }
  rewrite Hdim, Hfar in Hsat, Hrun.
  split; [vm_compute; reflexivity |].
  split; [exact Hp |].
  split; [reflexivity |].
  split; [exact Hsat |].
  simpl. unfold GeometricSolver._add_constraint. simpl.
  unfold GeometricSolver.new_id, GeometricSolver.set_map,
    GeometricSolver.call_dr. run. rewrite Hid.
  rewrite <- Hrun. unfold s, GeometricSolver.mapped. by rewrite Hid.
Qed.

(** In exact arithmetic: for a [DistanceConstraint] on two distinct
    variables with a distance that is not negative, and for an
    [AngleConstraint] on three distinct variables with an angle in
    (-pi, pi] (in [-pi, pi] in 3D), [_update_constraint] pushes the
    reference configuration (a at the origin and b at (d, 0[, 0]); b at the
    origin, a at (1, 0[, 0]) and c at (cos x, sin x[, 0])), this
    configuration satisfies the constraint under [satisfied], and the
    assertion after the synthesis passes. *)
Theorem reference_configuration_satisfies (w : GeometricProblem.World)
    (s : GeometricSolver.t) (con : Constraint) (cluster : pyobj) (x : R) :
  GeometricSolver._map s !! O_constraint con = Some cluster ->
  get_parameter (GeometricProblem.objects w) con = VFloat x ->
  NoDup (variables con) ->
  GeometricSolver.principal (GeometricSolver.dimension s) con x ->
  let m := GeometricSolver.reference (GeometricSolver.dimension s) con x in
  (forall opaque_satisfied,
     satisfied opaque_satisfied (GeometricProblem.objects w) con m = Ok true) /\
  GeometricSolver._update_constraint w con s
  = (GeometricSolver.pushed s cluster m, Ok tt).
Proof.
  intros Hm Hp Hnd Hprin m. unfold GeometricSolver.principal in Hprin.
  destruct (class con) eqn:Hk; try done.
  - destruct Hprin as [Hlen Hx].
    destruct (variables con) as [| a [| b [| c vs]]] eqn:Hv; try done.
    assert (Hab : a <> b).
    { intros ->. apply NoDup_cons in Hnd as [Hnd _]. apply Hnd. by left. }
    destruct (update_distance_outcome w s con a b cluster x)
      as [Hsat Hrun]; try done.
    rewrite Rabs_pos_eq, tol_eq_refl in Hsat, Hrun by done.
    split; [| exact Hrun].
    intros opq. unfold satisfied. by rewrite Hk.
  - destruct Hprin as [Hlen Hx].
    destruct (variables con) as [| a [| b [| c [| d vs]]]] eqn:Hv; try done.
    apply NoDup_cons in Hnd as [Ha Hnd]. apply NoDup_cons in Hnd as [Hb _].
    assert (Hab : a <> b) by (intros ->; apply Ha; by left).
    assert (Hac : a <> c) by (intros ->; apply Ha; right; by left).
    assert (Hbc : b <> c) by (intros ->; apply Hb; by left).
    pose proof (reference_angle_satisfied (GeometricProblem.objects w)
                  (GeometricSolver.dimension s) con a b c x
                  Hk Hv Hab Hac Hbc Hp Hx) as Hsat.
    split.
    + intros opq. unfold satisfied. by rewrite Hk.
    + by rewrite (update_angle_outcome w s con a b c cluster x true).
Qed.

(** The hypotheses of [reference_configuration_satisfies] hold for
    [DistanceConstraint("A", "B", 2)] in 2D: the solver pushes A at the
    origin and B at (2, 0), and the assertion passes. *)
Lemma reference_configuration_satisfies_witness :
  GeometricSolver._update_constraint Scenario.with_distance
    Scenario.distance_AB Scenario.solver_distance
  = (GeometricSolver.pushed Scenario.solver_distance
       (O_cluster (Rigid 2 ["A"; "B"]))
       (GeometricSolver.reference 2 Scenario.distance_AB 2),
     Ok tt).
Proof.
  refine (proj2 (reference_configuration_satisfies Scenario.with_distance
                   Scenario.solver_distance Scenario.distance_AB
                   (O_cluster (Rigid 2 ["A"; "B"])) 2 _ _ _ _)).
  - unfold Scenario.solver_distance, GeometricSolver.mapped. simpl.
    rewrite lookup_insert_ne by done. apply lookup_insert_eq.
  - vm_compute. reflexivity.
  - apply NoDup_cons. split; [| apply NoDup_singleton].
    intros H. apply list_elem_of_singleton in H. discriminate.
  - simpl. split; [reflexivity | lra].
Defined.

(** ** Removal and the identity map *)

Section Removal.
Import GeometricSolver.

(** [_rem_variable] drops the entry of the variable and keeps the entry
    of its rigid. *)
Lemma rem_variable_keeps_reverse (s : t) (var : variable) (cluster : pyobj) :
  _map s !! O_variable var = Some cluster ->
  _map s !! cluster = Some (O_variable var) ->
  cluster <> O_variable var ->
  (_rem_variable var s).2 = Ok tt /\
  _map (_rem_variable var s).1 !! O_variable var = None /\
  _map (_rem_variable var s).1 !! cluster = Some (O_variable var).
Proof.
  intros Hv Hc Hne. unfold _rem_variable. run.
  rewrite (proj2 (contains_true _ _)) by eauto.
  unfold getitem. rewrite Hv. simpl. unfold call_dr, set_map. run.
  split; [done |]. split; [apply lookup_delete_eq |].
  by rewrite lookup_delete_ne.
Qed.


End Removal.

(* ================================================================== *)
(** * Further properties of the code *)

(** ** [GeometricProblem.verify] *)

Section VerifyRaises.
Import GeometricProblem.
Variable opaque_satisfied : Constraint -> mapping -> result bool.
Variable h : store.
Variable solution : mapping.


End VerifyRaises.




(** ** Authoring calls *)

Section AuthoringConverse.
Import GeometricProblem.


End AuthoringConverse.



(** ** Points of the problem *)







(** ** Parameters of constraints *)

Section ParameterRoundTrip.
Import GeometricProblem.

End ParameterRoundTrip.




(** ** Properties kept by a method *)

Section Preserves.
Context {S : Type} (P : S -> Prop).

Lemma preserves_ret {A} (a : A) : preserves P (mret a : M S A).
Proof. intros s s' r HP [= <- _]. done. Qed.

Lemma preserves_raise {A} (e : exn) : preserves P (raise e : M S A).
Proof. intros s s' r HP [= <- _]. done. Qed.

Lemma preserves_lift {A} (x : result A) : preserves P (lift x : M S A).
Proof. intros s s' r HP [= <- _]. done. Qed.


Lemma preserves_modify (f : S -> S) :
  (forall s, P s -> P (f s)) -> preserves P (modify f).
Proof. intros Hf s s' r HP [= <- _]. auto. Qed.

Lemma preserves_bind {A B} (m : M S A) (k : A -> M S B) :
  preserves P m -> (forall a, preserves P (k a)) -> preserves P (m ≫= k).
Proof.
  intros Hm Hk s s' r HP. unfold mbind, M_bind.
  destruct (m s) as [s1 [a | e]] eqn:Hrun.
  - apply (Hk a). by apply (Hm s s1 (Ok a)).
  - intros [= <- _]. by apply (Hm s s1 (Raise e)).
Qed.

Lemma preserves_for_each {A} (l : list A) (body : A -> M S unit) :
  (forall x, x ∈ l -> preserves P (body x)) ->
  preserves P (for_each l body).
Proof.
  induction l as [| x l IH]; intros Hbody; simpl.
  - apply preserves_ret.
  - apply preserves_bind; [apply Hbody; by left |].
    intros _. apply IH. intros y Hy. apply Hbody. by right.
Qed.
End Preserves.

(** ** [get_result]: what the clusters hold *)

Section ResultClusters.
Import GeometricSolver.

Lemma geo_state (c : Cluster) (fr fr' : frame) (r : result nat) :
  geo c fr = (fr', r) -> fr' = fr.
Proof.
  unfold geo. run. destruct (getitem (map fr) (inl c)) as [[x | i] | e];
    simpl; by intros [= <- _].
Qed.


Lemma read_state (i : nat) (fr fr' : frame) (r : result GeometricCluster.t) :
  read i fr = (fr', r) -> fr' = fr.
Proof. unfold read. run. by intros [= <- _]. Qed.

Lemma preserves_geo (P : frame -> Prop) (c : Cluster) : preserves P (geo c).
Proof. intros fr fr' r HP Hrun. by rewrite (geo_state c fr fr' r Hrun). Qed.

Lemma preserves_read (P : frame -> Prop) (i : nat) : preserves P (read i).
Proof. intros fr fr' r HP Hrun. by rewrite (read_state i fr fr' r Hrun). Qed.

(** *** The flags *)









End ResultClusters.



Section TrackedClusters.
Import GeometricSolver.
Variable d : ClusterSolver.t.

(** An assignment that leaves the variables, the solutions and the flags
    of a result cluster alone. *)
Lemma tracked_update (r : nat) (f : GeometricCluster.t -> GeometricCluster.t) :
  (forall g, GeometricCluster.variables (f g) = GeometricCluster.variables g /\
             GeometricCluster.solutions (f g) = GeometricCluster.solutions g /\
             GeometricCluster.flag (f g) = GeometricCluster.flag g /\
             GeometricCluster.flags (f g) = GeometricCluster.flags g) ->
  preserves (tracked d) (update r f).
Proof.
  intros Hf. apply preserves_modify. intros fr Hfr c i Hc. simpl in *.
  destruct (Hfr c i Hc) as (g & Hg & Hv & Hs & Hfl & Hfls).
  rewrite list_lookup_alter. destruct (decide (r = i)) as [-> | Hne].
  - exists (f g). rewrite Hg. simpl. split; [done |].
    destruct (Hf g) as (-> & -> & -> & ->). done.
  - by exists g.
Qed.

Lemma tracked_append_sub (parent : nat) (inp : Cluster) :
  preserves (tracked d) (append_sub parent inp).
Proof.
  unfold append_sub. apply preserves_bind; [apply preserves_geo |].
  intros child. by apply tracked_update.
Qed.

Lemma tracked_map_rigid (c : Cluster) : preserves (tracked d) (map_rigid d c).
Proof.
  intros fr fr' r Hfr. unfold map_rigid, new_cluster, set_item, update. run.
  intros [= <- _]. intros c' i. simpl.
  rewrite lookup_insert_ne by done.
  destruct (decide (c = c')) as [<- | Hne].
  - rewrite lookup_insert_eq. intros [= <-].
    rewrite list_lookup_alter_eq, lookup_app_r, Nat.sub_diag by done.
    simpl. eexists. split; [reflexivity |]. simpl.
    split; [done |]. split; [done |]. split; [| done].
    unfold rigid_flag, rigid_solutions. done.
  - rewrite lookup_insert_ne by congruence. intros Hc'.
    destruct (Hfr c' i Hc') as (g & Hg & Hrest).
    exists g. split; [| done].
    assert (i < length (clusters fr))%nat by (by apply lookup_lt_Some in Hg).
    rewrite list_lookup_alter_ne by lia. by apply lookup_app_l_Some.
Qed.

Lemma tracked_map_method (method : ClusterSolver.Method) :
  preserves (tracked d) (map_method method).
Proof.
  unfold map_method. apply preserves_for_each. intros out _.
  destruct (is_Rigid out); [| apply preserves_ret].
  apply preserves_bind; [apply preserves_geo |]. intros parent.
  apply preserves_for_each. intros inp _.
  destruct (is_Rigid inp); [apply tracked_append_sub | apply preserves_ret].
Qed.

Lemma tracked_map_selection (method : ClusterSolver.Method) :
  preserves (tracked d) (map_selection method).
Proof.
  unfold map_selection.
  destruct (ClusterSolver.is_PrototypeMethod method); [| apply preserves_ret].
  apply preserves_bind; [apply preserves_lift |]. intros incluster.
  apply preserves_bind; [apply preserves_lift |]. intros outcluster.
  apply preserves_bind; [apply preserves_geo |]. intros geoin.
  apply preserves_bind; [apply preserves_geo |]. intros geoout.
  apply preserves_bind; [apply preserves_read |]. intros g.
  by apply tracked_update.
Qed.

(** The three loops of [get_result] keep [tracked]. *)
Lemma tracked_loops :
  preserves (tracked d)
    (for_each (ClusterSolver.rigids d) (map_rigid d) ;;
     for_each (ClusterSolver.methods d) map_method ;;
     for_each (ClusterSolver.methods d) map_selection).
Proof.
  apply preserves_bind.
  { apply preserves_for_each. intros c _. apply tracked_map_rigid. }
  intros _. apply preserves_bind.
  { apply preserves_for_each. intros c _. apply tracked_map_method. }
  intros _. apply preserves_for_each. intros c _. apply tracked_map_selection.
Qed.
End TrackedClusters.

Section TopLevel.
Import GeometricSolver.
Variable d : ClusterSolver.t.


End TopLevel.







(** ** Variables and constraints in the solver *)





(** ** Lookups in the constraint graph *)



